(** * quizrush-backend: the OCR route and the essay-grading route

    A shallow embedding of the two request handlers of the repository
    (the OCR upload route, [router.post('/')] with its helper
    [processImageWithOCR], and [routes/essayRoutes.js],
    [router.post('/grade-essay')]) together with the properties their
    specification states about them.

    Modelling conventions.
    - A text that enters a handler (a file name, a text layer, a line the
      OCR service recognized, a chat reply) is a [string]: a sequence of
      code units below 256 (Latin-1).  [toLowerCase], [trim], [split],
      [join] and [replace] are closed on that domain and modelled exactly
      on it.
    - A string inside a parsed JSON value is a sequence of 16-bit code
      units, since an escape in a Latin-1 text can denote any of them.
    - A JavaScript number is the exact rational its literal denotes; the
      rounding of IEEE doubles is represented only where a handler can
      observe it (a literal that reads as zero is falsy).
    - [await]-ed calls to the outside world (axios, pdf-parse, the chat
      completion client) are replies read from a [world] record; every
      outbound call is appended to a trace that survives a [throw].
    - [console.log] and friends have no effect on a response and are left
      out. *)

From Stdlib Require Import List String Ascii Bool Arith Lia ZArith QArith.
From Stdlib Require Import Sorted Qabs.
Import ListNotations.

Set Warnings "-register-all".

Local Open Scope nat_scope.
Local Open Scope string_scope.
Local Open Scope list_scope.

(* ================================================================== *)
(** * Part I: definitions                                              *)
(* ================================================================== *)

(** ** JavaScript strings, values and errors *)

Module JS.

Definition code (c : ascii) : nat := nat_of_ascii c.

(** The code units of ECMAScript's WhiteSpace and LineTerminator classes
    that lie below 256: TAB, LF, VT, FF, CR, SPACE and NBSP. *)
Definition isWhiteSpace (c : ascii) : bool :=
  let n := code c in
  ((n =? 9) || (n =? 10) || (n =? 11) || (n =? 12) || (n =? 13)
   || (n =? 32) || (n =? 160))%nat.

(** [String.prototype.toLowerCase] on one code unit: A-Z, and the Latin-1
    capitals U+00C0..U+00DE except the multiplication sign U+00D7. *)
Definition lowerChar (c : ascii) : ascii :=
  let n := code c in
  if (((65 <=? n) && (n <=? 90))
      || ((192 <=? n) && (n <=? 222) && negb (n =? 215)))%nat
  then ascii_of_nat (n + 32) else c.

Fixpoint toLowerCase (s : string) : string :=
  match s with
  | EmptyString => EmptyString
  | String c r => String (lowerChar c) (toLowerCase r)
  end.

(** [s.split(sep)] for a one-character separator; the result is never
    empty (["".split('.')] is [[""]]). *)
Fixpoint split (sep : ascii) (s : string) : list string :=
  match s with
  | EmptyString => [EmptyString]
  | String c r =>
      if Ascii.eqb c sep then EmptyString :: split sep r
      else match split sep r with
           | h :: t => String c h :: t
           | [] => [String c EmptyString]
           end
  end.

(** [arr.pop()] as an expression: the last element, [undefined] on an
    empty array. *)
Fixpoint pop (l : list string) : option string :=
  match l with
  | [] => None
  | [x] => Some x
  | _ :: t => pop t
  end.

(** [arr.join(sep)] on an array of strings. *)
Definition join (sep : string) (l : list string) : string :=
  String.concat sep l.

(** [arr.includes(x)] on an array of strings. *)
Definition includes (l : list string) (x : string) : bool :=
  existsb (String.eqb x) l.

Fixpoint trimStart (s : string) : string :=
  match s with
  | EmptyString => EmptyString
  | String c r => if isWhiteSpace c then trimStart r else s
  end.

Fixpoint trimEnd (s : string) : string :=
  match s with
  | EmptyString => EmptyString
  | String c r =>
      match trimEnd r with
      | EmptyString => if isWhiteSpace c then EmptyString
                       else String c EmptyString
      | r' => String c r'
      end
  end.

Definition trim (s : string) : string := trimEnd (trimStart s).

(** Truthiness of a string: only [''] is falsy. *)
Definition truthyStr (s : string) : bool :=
  match s with EmptyString => false | _ => true end.

(** The test [!s || s.trim() === ''] both handlers of the OCR route use. *)
Definition blank (s : string) : bool :=
  negb (truthyStr s) || String.eqb (trim s) "".

(** [[...new Set(arr)]]: [Set.prototype.add] appends a value that is not
    yet a member and ignores one that is; spreading lists the members in
    insertion order. *)
Definition Set_add (members : list string) (x : string) : list string :=
  if includes members x then members else members ++ [x].

Definition Set_from (arr : list string) : list string :=
  fold_left Set_add arr [].

(** A string inside a JSON value: a [\uXXXX] escape can denote any
    16-bit code unit, so these are sequences of code units as numbers. *)
Definition wstring : Type := list N.

Definition widen (s : string) : wstring :=
  map N_of_ascii (list_ascii_of_string s).

Fixpoint wstring_eqb (a b : wstring) : bool :=
  match a, b with
  | [], [] => true
  | x :: a', y :: b' => N.eqb x y && wstring_eqb a' b'
  | _, _ => false
  end.

(** JSON values, as [JSON.parse] builds them and [res.json] sends them.
    An object keeps its properties in insertion order. *)
Inductive value : Type :=
| VNull
| VBool (b : bool)
| VNum (q : Q)
| VStr (s : wstring)
| VArr (items : list value)
| VObj (props : list (wstring * value)).

(** A decimal literal this small is read as the double [0]: at most half
    of the least positive double, [2^-1074]. *)
Definition readsAsZero (q : Q) : bool :=
  Qle_bool (Qabs q) (Qmake 1 (2 ^ 1075)%positive).

(** [ToBoolean] on a value. *)
Definition truthy (v : value) : bool :=
  match v with
  | VNull => false
  | VBool b => b
  | VNum q => negb (readsAsZero q)
  | VStr s => match s with [] => false | _ :: _ => true end
  | VArr _ | VObj _ => true
  end.

(** A thrown [Error]: its [message], and [error.response.data] when the
    error is an axios error that carries a response. *)
Record error : Type := mkError {
  message : string;
  response_data : option value
}.

Definition Error (msg : string) : error := mkError msg None.

(** The TypeError of reading a property of [undefined] or [null]. *)
Definition TypeError (what : string) : error :=
  mkError ("Cannot read properties of " ++ what)%string None.

End JS.

(** ** Effects: outbound calls, and exceptions that keep the trace *)

Module Eff.

(** The grading prompt, by the values its template literal interpolates;
    the fixed prose between them is not reproduced.  [perCriterion] is
    shown with [toFixed(1)], three times; the breakdown skeleton lists
    [breakdownKeys] in order. *)
Record prompt : Type := mkPrompt {
  promptQuestion : string;
  promptAnswer : string;
  promptBloom : string;
  promptMaxScore : Q;
  perCriterion : Q;
  rubricCriteria : string;
  breakdownKeys : list string
}.

(** What leaves the process while a request is served. *)
Inductive event : Type :=
| AxiosPost (url : string) (body : list Byte.byte)
            (contentType : string) (key : string)
| AxiosGet (url : string) (key : string)
| SetTimeout (ms : nat)
| ChatCompletion (model system : string) (user : prompt)
                 (temperature : Q) (max_tokens : nat).

(** The state threaded through a handler: how many GETs were issued (it
    selects the service's next poll reply) and the trace so far. *)
Record state : Type := mkState {
  gets : nat;
  trace : list event
}.

Definition initial : state := mkState 0 [].

(** A computation either throws or returns, and always leaves a state. *)
Definition M (A : Type) : Type := state -> (JS.error + A) * state.

Definition ret {A} (a : A) : M A := fun st => (inr a, st).

Definition throw {A} (e : JS.error) : M A := fun st => (inl e, st).

Definition bind {A B} (c : M A) (k : A -> M B) : M B :=
  fun st =>
    match c st with
    | (inl e, st') => (inl e, st')
    | (inr a, st') => k a st'
    end.

(** [try { c } catch (e) { h e }] *)
Definition try_catch {A} (c : M A) (h : JS.error -> M A) : M A :=
  fun st =>
    match c st with
    | (inl e, st') => h e st'
    | (inr a, st') => (inr a, st')
    end.

Definition emit (ev : event) : M unit :=
  fun st => (inr tt, mkState (gets st) (trace st ++ [ev])).

(** A settled promise: rejected with an error or fulfilled with a value. *)
Definition settle {A} (r : JS.error + A) : M A :=
  fun st => (r, st).

End Eff.

Notation "x <- c ;; k" := (Eff.bind c (fun x => k))
  (at level 61, c at next level, right associativity).
Notation "c ;;; k" := (Eff.bind c (fun _ => k))
  (at level 61, right associativity).

(** ** The OCR route ([router.post('/')] and [processImageWithOCR]) *)

Module OCR.
Import JS Eff.

Definition LF : ascii := ascii_of_nat 10.
Definition dot : ascii := ascii_of_nat 46.
(** The one-character string ['\n']. *)
Definition nl : string := String LF EmptyString.

(** [req.file], as multer fills it in. *)
Record uploaded_file : Type := mkFile {
  originalname : string;
  mimetype : string;
  buffer : list Byte.byte
}.

(** The body of a poll reply:
    [{status, analyzeResult: {pages: [{lines: [{content}]}]}}],
    where [analyzeResult] may be missing. *)
Record line : Type := mkLine { content : string }.
Record page : Type := mkPage { lines : list line }.
Record analyze_result : Type := mkAnalyze { pages : list page }.
Record poll_data : Type := mkPoll {
  status : string;
  analyzeResult : option analyze_result
}.

(** What [pdf(buffer)] resolves to; [text] may be undefined. *)
Record pdf_data : Type := mkPdf { text : option string }.

(** The world one request sees: the two environment variables, pdf-parse
    as a function of the bytes, the reply to the submission (the
    [operation-location] header, or a rejection), and the reply to the
    n-th GET of the job location. *)
Record world : Type := mkWorld {
  AZURE_OCR_ENDPOINT : string;
  AZURE_OCR_KEY : string;
  pdf : list Byte.byte -> error + pdf_data;
  post_reply : error + option string;
  get_reply : nat -> error + poll_data
}.

Inductive body : Type :=
| Text (text : string)
| Failure (error : string)
| FailureDetails (error : string) (details : value).

Record response : Type := mkResponse {
  statusCode : nat;
  json : body
}.

Definition axios_post (w : world) (url : string) (data : list Byte.byte)
    (contentType key : string) : M (option string) :=
  emit (AxiosPost url data contentType key) ;;;
  settle (post_reply w).

Definition axios_get (w : world) (url key : string) : M poll_data :=
  fun st =>
    (get_reply w (gets st),
     mkState (S (gets st)) (trace st ++ [AxiosGet url key])).

(** [await new Promise(resolve => setTimeout(resolve, ms))] *)
Definition sleep (ms : nat) : M unit := emit (SetTimeout ms).

(** The two nested [for ... of] loops that [push] every line's content. *)
Definition collectLines (ps : list page) : list string :=
  fold_left
    (fun acc p => fold_left (fun acc l => acc ++ [content l]) (lines p) acc)
    ps [].

(** The loop [for (let i = 0; i < 15; i++)], by the number of iterations
    still to run, followed by the [throw] after it. *)
Fixpoint pollLoop (w : world) (operationLocation key : string)
    (remaining : nat) : M string :=
  match remaining with
  | O => throw (Error "OCR timeout")
  | S remaining' =>
      sleep 1000 ;;;
      poll <- axios_get w operationLocation key ;;
      if String.eqb (status poll) "succeeded" then
        match analyzeResult poll with
        | Some r => ret (join nl (collectLines (pages r)))
        | None => throw (TypeError "undefined (reading 'pages')")
        end
      else if String.eqb (status poll) "failed" then
        throw (Error "Azure OCR failed")
      else pollLoop w operationLocation key remaining'
  end.

Definition maxAttempts : nat := 15.

Definition analyzePath : string :=
  "/formrecognizer/documentModels/prebuilt-read:analyze?api-version=2023-07-31".

Definition processImageWithOCR (w : world) (imageBuffer : list Byte.byte)
    (mimeType : string) : M string :=
  let endpoint := (AZURE_OCR_ENDPOINT w ++ analyzePath)%string in
  let key := AZURE_OCR_KEY w in
  operationLocation <- axios_post w endpoint imageBuffer mimeType key ;;
  match operationLocation with
  | Some loc =>
      if truthyStr loc then pollLoop w loc key maxAttempts
      else throw (Error "Azure did not return operation-location")
  | None => throw (Error "Azure did not return operation-location")
  end.

(** [file.originalname.split('.').pop().toLowerCase()]; [split] never
    yields an empty array, so [pop] never yields [undefined] here. *)
Definition fileExt (originalname : string) : string :=
  toLowerCase
    (match pop (split dot originalname) with
     | Some last => last
     | None => EmptyString
     end).

Definition supportedExtensions : list string := ["jpg"; "jpeg"; "png"; "pdf"].

Definition unsupported : response :=
  mkResponse 400
    (Failure "Only .jpg, .jpeg, .png images or .pdf documents are supported").

(** [[...new Set(extractedText.split('\n').filter(l => l.trim()))].join('\n')] *)
Definition dedupLines (extractedText : string) : list string :=
  Set_from (filter (fun l => truthyStr (trim l)) (split LF extractedText)).

Definition dedup (extractedText : string) : string :=
  join nl (dedupLines extractedText).

(** The branch [if (ext === 'pdf') { ... }]. *)
Definition extractPdf (w : world) (file : uploaded_file) : M response :=
  pdfData <- settle (pdf w (buffer file)) ;;
  let extractedText :=
    match text pdfData with
    | Some t => if truthyStr t then t else EmptyString
    | None => EmptyString
    end in
  extractedText <-
    try_catch
      (ocrText <- processImageWithOCR w (buffer file) "application/pdf" ;;
       if truthyStr ocrText && truthyStr (trim ocrText)
       then ret (extractedText ++ nl ++ nl ++ ocrText)%string
       else ret extractedText)
      (fun ocrError => ret extractedText) ;;
  if blank extractedText then
    ret (mkResponse 400 (Failure
      "No text found in PDF. The PDF may be empty or contain unsupported content."))
  else ret (mkResponse 200 (Text (dedup extractedText))).

(** The code after the PDF branch: a regular image. *)
Definition extractImage (w : world) (file : uploaded_file) : M response :=
  extractedText <- processImageWithOCR w (buffer file) (mimetype file) ;;
  if blank extractedText then
    ret (mkResponse 400 (Failure
      "No text found in image. Please ensure the image contains clear, readable text."))
  else ret (mkResponse 200 (Text extractedText)).

(** [error.response?.data || error.message] *)
Definition errorDetails (e : error) : value :=
  match response_data e with
  | Some d => if truthy d then d else VStr (widen (message e))
  | None => VStr (widen (message e))
  end.

(** The outer [try { ... } catch (error) { ... }] of the handler. *)
Definition extract (w : world) (file : uploaded_file) (ext : string)
    : M response :=
  try_catch
    (if String.eqb ext "pdf" then extractPdf w file else extractImage w file)
    (fun error =>
       ret (mkResponse 500
              (FailureDetails "Text extraction failed" (errorDetails error)))).

(** [router.post('/', upload.single('file'), async (req, res) => ...)] *)
Definition handler (w : world) (file : option uploaded_file) : M response :=
  match file with
  | None => ret (mkResponse 400 (Failure "No file uploaded"))
  | Some file =>
      let ext := fileExt (originalname file) in
      if negb (includes supportedExtensions ext) then ret unsupported
      else extract w file ext
  end.

(** The outbound calls a run made to the OCR service. *)
Definition isOcrCall (ev : event) : bool :=
  match ev with
  | AxiosPost _ _ _ _ | AxiosGet _ _ => true
  | _ => false
  end.

(** *** The specification's wording of the deduplication step *)

(** Keep the first occurrence of each exact line: a line stays, and every
    later copy of it is dropped. *)
Fixpoint firstOccurrences (ls : list string) : list string :=
  match ls with
  | [] => []
  | l :: rest =>
      l :: filter (fun x => negb (String.eqb x l)) (firstOccurrences rest)
  end.

(** Position of the first occurrence of a line (the length when there is
    none), as [Array.prototype.indexOf] counts it. *)
Fixpoint indexOf (x : string) (ls : list string) : nat :=
  match ls with
  | [] => 0
  | l :: rest => if String.eqb x l then 0 else S (indexOf x rest)
  end.

(** A line is blank when it is empty or whitespace-only. *)
Definition isBlankLine (l : string) : bool :=
  forallb isWhiteSpace (list_ascii_of_string l).

(** Page order, then line order. *)
Definition recognizedLines (ps : list page) : list string :=
  flat_map (fun p => map content (lines p)) ps.

(** A poll reply that is neither terminal status: the loop goes on. *)
Definition pending (r : error + poll_data) : Prop :=
  exists d, r = inr d
            /\ String.eqb (status d) "succeeded" = false
            /\ String.eqb (status d) "failed" = false.

(** [n] rounds of waiting one second and then polling. *)
Fixpoint pollTrace (operationLocation key : string) (n : nat) : list event :=
  match n with
  | O => []
  | S n' =>
      SetTimeout 1000 :: AxiosGet operationLocation key
        :: pollTrace operationLocation key n'
  end.

Definition isGet (ev : event) : bool :=
  match ev with AxiosGet _ _ => true | _ => false end.

(** How many GETs a trace holds. *)
Definition getCount (tr : list event) : nat :=
  List.length (filter isGet tr).

(** Does the character occur in the string? *)
Fixpoint occurs (c : ascii) (s : string) : bool :=
  match s with
  | EmptyString => false
  | String a r => Ascii.eqb a c || occurs c r
  end.

(** *** Vocabulary for the handler's answers *)

(** [pdfData.text || ''] *)
Definition textLayer (d : pdf_data) : string :=
  match text d with
  | Some t => if truthyStr t then t else EmptyString
  | None => EmptyString
  end.

Definition noTextInPdf : response :=
  mkResponse 400 (Failure
    "No text found in PDF. The PDF may be empty or contain unsupported content.").

Definition noTextInImage : response :=
  mkResponse 400 (Failure
    "No text found in image. Please ensure the image contains clear, readable text.").

Definition extractionFailed (e : error) : response :=
  mkResponse 500 (FailureDetails "Text extraction failed" (errorDetails e)).

(** The content type the handler submits a file under. *)
Definition contentTypeOf (file : uploaded_file) : string :=
  if String.eqb (fileExt (originalname file)) "pdf"
  then "application/pdf" else mimetype file.

(** The one POST a request can cause. *)
Definition submission (w : world) (file : uploaded_file) : event :=
  AxiosPost (AZURE_OCR_ENDPOINT w ++ analyzePath)%string (buffer file)
            (contentTypeOf file) (AZURE_OCR_KEY w).

(** A status that fits the body: 200 with a text, 400 with a bare error,
    500 with the error Text extraction failed and its details. *)
Definition wellFormed (r : response) : Prop :=
  match json r with
  | Text _ => statusCode r = 200
  | Failure _ => statusCode r = 400
  | FailureDetails e _ =>
      statusCode r = 500 /\ e = "Text extraction failed"
  end.

End OCR.

(** ** Sample requests and worlds *)

Module Samples.
Import JS Eff OCR.

Definition running : error + poll_data := inr (mkPoll "running" None).

Definition twoPages : analyze_result :=
  mkAnalyze [ mkPage [mkLine "alpha"; mkLine "beta"]; mkPage [mkLine "gamma"] ].

(** A service that accepts the submission and reports success on the
    third poll. *)
Definition succeedsOnThird : world :=
  mkWorld "https://ocr.example" "secret"
    (fun _ => inr (mkPdf (Some "layer")))
    (inr (Some "https://ocr.example/job/1"))
    (fun i => if Nat.ltb i 2 then running
              else inr (mkPoll "succeeded" (Some twoPages))).

(** A service whose submission is refused; the PDF has the given text
    layer. *)
Definition ocrDown (layer : string) : world :=
  mkWorld "https://ocr.example" "secret"
    (fun _ => inr (mkPdf (Some layer)))
    (inl (Error "Request failed with status code 401"))
    (fun _ => running).

Definition gif : uploaded_file := mkFile "holiday.GIF" "image/gif" [].
Definition barePdf : uploaded_file := mkFile "pdf" "application/pdf" [].
Definition scan : uploaded_file := mkFile "scan.pdf" "application/pdf" [].
Definition photo : uploaded_file := mkFile "photo.PNG" "image/png" [].

End Samples.

(** ** More sample worlds *)

Module MoreSamples.
Import JS Eff OCR.

(** A service that accepts the submission without naming a job. *)
Definition noLocation : world :=
  mkWorld "https://ocr.example" "secret"
    (fun _ => inr (mkPdf (Some "layer")))
    (inr None)
    (fun _ => Samples.running).

(** A service whose second poll is refused. *)
Definition secondPollRefused : world :=
  mkWorld "https://ocr.example" "secret"
    (fun _ => inr (mkPdf (Some "layer")))
    (inr (Some "https://ocr.example/job/2"))
    (fun i => if Nat.eqb i 1
              then inl (Error "Request failed with status code 429")
              else Samples.running).

(** A service that reports success at once, with the given lines on one
    page. *)
Definition recognizes (ls : list string) : world :=
  mkWorld "https://ocr.example" "secret"
    (fun _ => inr (mkPdf (Some "Title")))
    (inr (Some "https://ocr.example/job/3"))
    (fun _ => inr (mkPoll "succeeded"
                     (Some (mkAnalyze [mkPage (map mkLine ls)])))).

(** A PDF that pdf-parse cannot read. *)
Definition unreadablePdf : world :=
  mkWorld "https://ocr.example" "secret"
    (fun _ => inl (Error "Invalid PDF structure"))
    (inr (Some "https://ocr.example/job/4"))
    (fun _ => Samples.running).

End MoreSamples.

(** ** [JSON.parse] *)

Module JSON.
Import JS.
Local Open Scope nat_scope.

Inductive token : Type :=
| TLBrace | TRBrace | TLBracket | TRBracket | TColon | TComma
| TString (s : wstring)
| TNumber (q : Q)
| TTrue | TFalse | TNull.

(** *** Numbers: [-? int frac? exp?] *)

Definition digitOf (c : ascii) : option nat :=
  let n := code c in
  if (48 <=? n) && (n <=? 57) then Some (n - 48) else None.

(** The longest run of digits at the front, and what follows it. *)
Fixpoint takeDigits (cs : list ascii) : list nat * list ascii :=
  match cs with
  | [] => ([], [])
  | c :: r =>
      match digitOf c with
      | Some d => let (ds, rest) := takeDigits r in (d :: ds, rest)
      | None => ([], cs)
      end
  end.

Definition digitsValue (ds : list nat) : Z :=
  fold_left (fun acc d => (10 * acc + Z.of_nat d)%Z) ds 0%Z.

(** [mantissa * 10^scale], in lowest terms. *)
Definition scaled (mantissa scale : Z) : Q :=
  Qred (if (0 <=? scale)%Z
        then Qmake (mantissa * 10 ^ scale) 1
        else Qmake mantissa (Z.to_pos (10 ^ (- scale)))).

Definition isChar (c : ascii) (n : nat) : bool := code c =? n.

Definition numberOf (cs : list ascii) : option Q :=
  let (negative, cs1) :=
    match cs with
    | c :: r => if isChar c 45 then (true, r) else (false, cs)
    | [] => (false, cs)
    end in
  let (int, cs2) := takeDigits cs1 in
  let intOk :=
    match int with
    | [] => false
    | [_] => true
    | d :: _ => negb (d =? 0)
    end in
  let '(frac, fracOk, cs3) :=
    match cs2 with
    | c :: r =>
        if isChar c 46
        then let (fs, rest) := takeDigits r in
             (fs, negb (List.length fs =? 0), rest)
        else ([], true, cs2)
    | [] => ([], true, cs2)
    end in
  let '(exponent, expOk, cs4) :=
    match cs3 with
    | c :: r =>
        if isChar c 101 || isChar c 69 then
          let (minus, r1) :=
            match r with
            | s :: r' => if isChar s 45 then (true, r')
                         else if isChar s 43 then (false, r')
                         else (false, r)
            | [] => (false, r)
            end in
          let (es, rest) := takeDigits r1 in
          ((if minus then - digitsValue es else digitsValue es)%Z,
           negb (List.length es =? 0), rest)
        else (0%Z, true, cs3)
    | [] => (0%Z, true, cs3)
    end in
  match cs4 with
  | [] =>
      if intOk && fracOk && expOk then
        let m := digitsValue (int ++ frac) in
        Some (scaled (if negative then - m else m)%Z
                     (exponent - Z.of_nat (List.length frac))%Z)
      else None
  | _ :: _ => None
  end.

(** *** The lexer, one character at a time *)

Inductive strmode : Type :=
| SNormal
| SEscape
| SHex (seen : nat) (acc : N).

Inductive lstate : Type :=
| LDefault
| LString (rev_units : list N) (m : strmode)
| LNumber (rev_chars : list ascii)
| LWord (rev_chars : list ascii).

(** JSON's own whitespace: space, TAB, LF, CR. *)
Definition isJsonSpace (c : ascii) : bool :=
  isChar c 32 || isChar c 9 || isChar c 10 || isChar c 13.

Definition isNumberChar (c : ascii) : bool :=
  match digitOf c with
  | Some _ => true
  | None => isChar c 45 || isChar c 43 || isChar c 46
            || isChar c 101 || isChar c 69
  end.

Definition isLetter (c : ascii) : bool :=
  let n := code c in (97 <=? n) && (n <=? 122).

Definition hexOf (c : ascii) : option N :=
  let n := code c in
  if (48 <=? n) && (n <=? 57) then Some (N.of_nat (n - 48))
  else if (97 <=? n) && (n <=? 102) then Some (N.of_nat (n - 87))
  else if (65 <=? n) && (n <=? 70) then Some (N.of_nat (n - 55))
  else None.

Definition wordToken (rev_chars : list ascii) : option token :=
  let w := string_of_list_ascii (rev rev_chars) in
  if String.eqb w "true" then Some TTrue
  else if String.eqb w "false" then Some TFalse
  else if String.eqb w "null" then Some TNull
  else None.

Definition numberToken (rev_chars : list ascii) : option token :=
  option_map TNumber (numberOf (rev rev_chars)).

(** A character met between tokens. *)
Definition lexDefault (c : ascii) : option (lstate * list token) :=
  if isJsonSpace c then Some (LDefault, [])
  else if isChar c 123 then Some (LDefault, [TLBrace])
  else if isChar c 125 then Some (LDefault, [TRBrace])
  else if isChar c 91 then Some (LDefault, [TLBracket])
  else if isChar c 93 then Some (LDefault, [TRBracket])
  else if isChar c 58 then Some (LDefault, [TColon])
  else if isChar c 44 then Some (LDefault, [TComma])
  else if isChar c 34 then Some (LString [] SNormal, [])
  else if isChar c 45 then Some (LNumber [c], [])
  else match digitOf c with
       | Some _ => Some (LNumber [c], [])
       | None => if isLetter c then Some (LWord [c], []) else None
       end.

(** The code unit an escape letter stands for. *)
Definition escapeOf (c : ascii) : option N :=
  if isChar c 34 || isChar c 92 || isChar c 47 then Some (N_of_ascii c)
  else if isChar c 98 then Some 8%N
  else if isChar c 102 then Some 12%N
  else if isChar c 110 then Some 10%N
  else if isChar c 114 then Some 13%N
  else if isChar c 116 then Some 9%N
  else None.

(** A token that ends because the next character cannot extend it; that
    character is then read as one met between tokens. *)
Definition closeWith (t : option token) (c : ascii)
    : option (lstate * list token) :=
  match t, lexDefault c with
  | Some t, Some (st, ts) => Some (st, t :: ts)
  | _, _ => None
  end.

Definition lexStep (st : lstate) (c : ascii) : option (lstate * list token) :=
  match st with
  | LDefault => lexDefault c
  | LNumber acc =>
      if isNumberChar c then Some (LNumber (c :: acc), [])
      else closeWith (numberToken acc) c
  | LWord acc =>
      if isLetter c then Some (LWord (c :: acc), [])
      else closeWith (wordToken acc) c
  | LString acc SNormal =>
      if isChar c 34 then Some (LDefault, [TString (rev acc)])
      else if isChar c 92 then Some (LString acc SEscape, [])
      else if code c <? 32 then None
      else Some (LString (N_of_ascii c :: acc) SNormal, [])
  | LString acc SEscape =>
      if isChar c 117 then Some (LString acc (SHex 0 0), [])
      else match escapeOf c with
           | Some e => Some (LString (e :: acc) SNormal, [])
           | None => None
           end
  | LString acc (SHex seen v) =>
      match hexOf c with
      | None => None
      | Some h =>
          let v' := (16 * v + h)%N in
          if seen =? 3 then Some (LString (v' :: acc) SNormal, [])
          else Some (LString acc (SHex (S seen) v'), [])
      end
  end.

Definition lexFinish (st : lstate) : option (list token) :=
  match st with
  | LDefault => Some []
  | LNumber acc => option_map (fun t => [t]) (numberToken acc)
  | LWord acc => option_map (fun t => [t]) (wordToken acc)
  | LString _ _ => None
  end.

Fixpoint lexFrom (st : lstate) (out : list token) (s : string)
    : option (lstate * list token) :=
  match s with
  | EmptyString => Some (st, out)
  | String c r =>
      match lexStep st c with
      | Some (st', ts) => lexFrom st' (out ++ ts) r
      | None => None
      end
  end.

Definition lex (s : string) : option (list token) :=
  match lexFrom LDefault [] s with
  | Some (st, out) => option_map (app out) (lexFinish st)
  | None => None
  end.

(** *** Objects: property order *)

(** An array index as a property key: a canonical decimal numeral below
    [2^32 - 1].  Such keys are listed first, in ascending order. *)
Fixpoint digitsOf (k : wstring) : option (list nat) :=
  match k with
  | [] => Some []
  | u :: rest =>
      if ((48 <=? u) && (u <=? 57))%N
      then option_map (cons (N.to_nat (u - 48))) (digitsOf rest)
      else None
  end.

Definition arrayIndex (k : wstring) : option Z :=
  match digitsOf k with
  | Some (d :: ds) =>
      let v := digitsValue (d :: ds) in
      if (negb (d =? 0) || (List.length ds =? 0)) && (v <? 4294967295)%Z
      then Some v else None
  | _ => None
  end.

(** Where a new index key goes: before the first key that is not an index
    or is a larger one. *)
Fixpoint insertIndex (i : Z) (k : wstring) (v : value)
    (props : list (wstring * value)) : list (wstring * value) :=
  match props with
  | [] => [(k, v)]
  | (k', v') :: rest =>
      match arrayIndex k' with
      | Some j => if (j <? i)%Z then (k', v') :: insertIndex i k v rest
                  else (k, v) :: props
      | None => (k, v) :: props
      end
  end.

Fixpoint replaceProp (k : wstring) (v : value)
    (props : list (wstring * value)) : option (list (wstring * value)) :=
  match props with
  | [] => None
  | (k', v') :: rest =>
      if wstring_eqb k' k then Some ((k', v) :: rest)
      else option_map (cons (k', v')) (replaceProp k v rest)
  end.

(** Defining a property: a key already present keeps its place and takes
    the new value. *)
Definition setProp (props : list (wstring * value)) (k : wstring)
    (v : value) : list (wstring * value) :=
  match replaceProp k v props with
  | Some props' => props'
  | None =>
      match arrayIndex k with
      | Some i => insertIndex i k v props
      | None => props ++ [(k, v)]
      end
  end.

Fixpoint getProp (props : list (wstring * value)) (k : wstring)
    : option value :=
  match props with
  | [] => None
  | (k', v) :: rest => if wstring_eqb k' k then Some v else getProp rest k
  end.

(** *** The parser, one token at a time *)

(** A container that is still open. *)
Inductive frame : Type :=
| FArr (items : list value)
| FObj (props : list (wstring * value)) (key : wstring).

Inductive expect : Type :=
| EValue              (* a value *)
| EValueOrClose       (* just after [[]: a value or []] *)
| EKeyOrClose         (* just after [{]: a key or [}] *)
| EKey                (* after a comma in an object *)
| EColon              (* after a key *)
| ECommaOrClose       (* after a value inside a container *)
| EDone (v : value).  (* the text's value is complete *)

(** A finished value goes to the innermost open container, or is the
    result. *)
Definition deliver (stack : list frame) (v : value)
    : list frame * expect :=
  match stack with
  | [] => ([], EDone v)
  | FArr items :: below => (FArr (items ++ [v]) :: below, ECommaOrClose)
  | FObj props key :: below =>
      (FObj (setProp props key v) key :: below, ECommaOrClose)
  end.

Definition startValue (stack : list frame) (t : token)
    : option (list frame * expect) :=
  match t with
  | TNull => Some (deliver stack VNull)
  | TTrue => Some (deliver stack (VBool true))
  | TFalse => Some (deliver stack (VBool false))
  | TNumber q => Some (deliver stack (VNum q))
  | TString s => Some (deliver stack (VStr s))
  | TLBracket => Some (FArr [] :: stack, EValueOrClose)
  | TLBrace => Some (FObj [] [] :: stack, EKeyOrClose)
  | _ => None
  end.

Definition parseStep (st : list frame * expect) (t : token)
    : option (list frame * expect) :=
  let (stack, e) := st in
  match e, t, stack with
  | EValue, _, _ => startValue stack t
  | EValueOrClose, TRBracket, FArr items :: below =>
      Some (deliver below (VArr items))
  | EValueOrClose, _, _ => startValue stack t
  | EKeyOrClose, TRBrace, FObj props _ :: below =>
      Some (deliver below (VObj props))
  | EKeyOrClose, TString k, FObj props _ :: below =>
      Some (FObj props k :: below, EColon)
  | EKey, TString k, FObj props _ :: below =>
      Some (FObj props k :: below, EColon)
  | EColon, TColon, _ => Some (stack, EValue)
  | ECommaOrClose, TComma, FArr _ :: _ => Some (stack, EValue)
  | ECommaOrClose, TComma, FObj _ _ :: _ => Some (stack, EKey)
  | ECommaOrClose, TRBracket, FArr items :: below =>
      Some (deliver below (VArr items))
  | ECommaOrClose, TRBrace, FObj props _ :: below =>
      Some (deliver below (VObj props))
  | _, _, _ => None
  end.

Fixpoint parseFrom (st : list frame * expect) (ts : list token)
    : option (list frame * expect) :=
  match ts with
  | [] => Some st
  | t :: rest =>
      match parseStep st t with
      | Some st' => parseFrom st' rest
      | None => None
      end
  end.

Definition parseTokens (ts : list token) : option value :=
  match parseFrom ([], EValue) ts with
  | Some ([], EDone v) => Some v
  | _ => None
  end.

(** [JSON.parse(text)]: [None] stands for the SyntaxError it throws. *)
Definition parse (text : string) : option value :=
  match lex text with
  | Some ts => parseTokens ts
  | None => None
  end.

End JSON.

(** ** The essay-grading route ([routes/essayRoutes.js]) *)

Module Essay.
Import JS Eff.
Local Open Scope nat_scope.

(** [req.body], after [express.json()]: every field may be absent. *)
Record grading_request : Type := mkRequest {
  question : option string;
  answer : option string;
  rubric : option (list (string * string));
  max_score : option Q;
  bloom_level : option string
}.

(** The reply of the chat-completion call: a rejection, or
    [response.choices[0].message.content], which may be [null]. *)
Record world : Type := mkWorld {
  completion : error + option string
}.

Inductive body : Type :=
| Graded (gradingResult : value)
| Failure (error : string)
| FailureDetails (error : string) (details : string).

Record response : Type := mkResponse {
  statusCode : nat;
  json : body
}.

(** [x || fallback] on a possibly absent string. *)
Definition orString (x : option string) (fallback : string) : string :=
  match x with
  | Some s => if truthyStr s then s else fallback
  | None => fallback
  end.

Definition Object_entries (rubric : list (string * string))
    : list (string * string) := rubric.

Definition Object_keys (rubric : list (string * string)) : list string :=
  map fst rubric.

(** [Object.keys(rubric).length || 4] *)
Definition numCriteria (rubric : list (string * string)) : nat :=
  match List.length (Object_keys rubric) with
  | O => 4
  | n => n
  end.

(** [max_score / numCriteria] *)
Definition maxPerCriterion (max_score : Q) (rubric : list (string * string))
    : Q :=
  (max_score / inject_Z (Z.of_nat (numCriteria rubric)))%Q.

Definition buildPrompt (question answer bloom_level : string)
    (max_score : Q) (rubric : list (string * string)) : prompt :=
  let rubricCriteria :=
    join OCR.nl
      (map (fun e => ("- " ++ fst e ++ ": " ++ snd e)%string)
           (Object_entries rubric)) in
  mkPrompt question answer (orString (Some bloom_level) "Not specified")
           max_score (maxPerCriterion max_score rubric)
           rubricCriteria (Object_keys rubric).

Definition systemMessage : string :=
  "You are an expert educator who provides fair, constructive feedback on student essays. Always return valid JSON responses.".

(** [await openai.chat.completions.create({...})], then
    [response.choices[0].message.content]. *)
Definition chat (w : world) (p : prompt) : M (option string) :=
  emit (ChatCompletion "gpt-4" systemMessage p (1 # 2) 1000) ;;;
  settle (completion w).

(** *** Stripping the code fences *)

Definition isBacktick (c : ascii) : bool := code c =? 96.

Definition startsFence (s : string) : bool :=
  match s with
  | String a (String b (String c _)) =>
      isBacktick a && isBacktick b && isBacktick c
  | _ => false
  end.

(** [/```/g]: the length of a match at the very start of [s]. *)
Definition matchFence (s : string) : option nat :=
  if startsFence s then Some 3 else None.

Definition sameLetter (c : ascii) (lower : nat) : bool :=
  code (lowerChar c) =? lower.

(** [/```(json)?/gi]: the optional group is taken when it can be. *)
Definition matchFenceJson (s : string) : option nat :=
  if startsFence s then
    match s with
    | String _ (String _ (String _
        (String j (String s' (String o (String n _)))))) =>
        if sameLetter j 106 && sameLetter s' 115
           && sameLetter o 111 && sameLetter n 110
        then Some 7 else Some 3
    | _ => Some 3
    end
  else None.

(** [s.replace(re, '')] for a global [re]: the matches are found from
    left to right, each search resuming where the last match ended.
    [skip] counts the characters of the current match still to drop. *)
Fixpoint removeMatches (matchAt : string -> option nat) (skip : nat)
    (s : string) : string :=
  match s with
  | EmptyString => EmptyString
  | String c r =>
      match skip with
      | S k => removeMatches matchAt k r
      | O =>
          match matchAt s with
          | Some (S k) => removeMatches matchAt k r
          | _ => String c (removeMatches matchAt 0 r)
          end
      end
  end.

(** The two assignments to [rawResponse]: trimmed content, then fences
    removed and trimmed again. *)
Definition clean (content : string) : string :=
  trim (removeMatches matchFence 0
          (removeMatches matchFenceJson 0 (trim content))).

(** *** Reading the parsed result *)

(** [gradingResult.name]: a TypeError on [null], [undefined] on anything
    that has no such property. *)
Definition member (v : value) (name : string) : error + option value :=
  match v with
  | VNull => inl (TypeError ("null (reading '" ++ name ++ "')")%string)
  | VObj props => inr (JSON.getProp props (widen name))
  | _ => inr None
  end.

Definition isNumber (x : option value) : bool :=
  match x with Some (VNum _) => true | _ => false end.

Definition truthyOpt (x : option value) : bool :=
  match x with Some v => truthy v | None => false end.

(** The body of the [try] block. *)
Definition grade (w : world) (question answer bloom_level : string)
    (max_score : Q) (rubric : list (string * string)) : M response :=
  content <- chat w (buildPrompt question answer bloom_level max_score rubric) ;;
  match content with
  | None => throw (TypeError "null (reading 'trim')")
  | Some content =>
      let rawResponse := clean content in
      match JSON.parse rawResponse with
      | None =>
          ret (mkResponse 500
                 (FailureDetails "Failed to parse AI response." rawResponse))
      | Some gradingResult =>
          score <- settle (member gradingResult "score") ;;
          feedback <- settle (member gradingResult "feedback") ;;
          breakdown <- settle (member gradingResult "breakdown") ;;
          if negb (isNumber score) || negb (truthyOpt feedback)
             || negb (truthyOpt breakdown)
          then ret (mkResponse 500
                      (Failure "Invalid grading response structure from AI."))
          else ret (mkResponse 200 (Graded gradingResult))
      end
  end.

(** [router.post('/grade-essay', express.json(), async (req, res) => ...)] *)
Definition handler (w : world) (req : grading_request) : M response :=
  let rubric := match rubric req with Some r => r | None => [] end in
  let max_score := match max_score req with Some m => m | None => 10%Q end in
  let bloom_level := match bloom_level req with Some b => b | None => EmptyString end in
  match question req, answer req with
  | Some question, Some answer =>
      if negb (truthyStr question) || negb (truthyStr answer) then
        ret (mkResponse 400 (Failure
          "Missing required fields: question and answer are required."))
      else if negb (truthyStr (trim answer)) then
        ret (mkResponse 400 (Failure "Answer cannot be empty."))
      else
        try_catch
          (grade w question answer bloom_level max_score rubric)
          (fun error =>
             ret (mkResponse 500
                    (FailureDetails "Essay grading failed." (message error))))
  | _, _ =>
      ret (mkResponse 400 (Failure
        "Missing required fields: question and answer are required."))
  end.

(** *** The specification's vocabulary *)

(** No three backticks in a row anywhere in the text. *)
Fixpoint fenceFree (s : string) : bool :=
  match s with
  | EmptyString => true
  | String _ r => negb (startsFence s) && fenceFree r
  end.

Definition backticks : string :=
  String (ascii_of_nat 96) (String (ascii_of_nat 96)
    (String (ascii_of_nat 96) EmptyString)).

(** An opening fence carries no tag or the tag json, in any letter case. *)
Definition fenceTag (tag : string) : bool :=
  String.eqb tag "" || String.eqb (toLowerCase tag) "json".

(** A payload in a fenced code block. *)
Definition fenced (tag payload : string) : string :=
  (backticks ++ tag ++ OCR.nl ++ payload ++ OCR.nl ++ backticks)%string.

(** A request that passes validation. *)
Definition valid (req : grading_request) : Prop :=
  exists q a, question req = Some q /\ answer req = Some a
              /\ truthyStr q = true /\ truthyStr a = true
              /\ truthyStr (trim a) = true.

(** What the handler hands to the chat-completion call for a request. *)
Definition promptOf (req : grading_request) : prompt :=
  buildPrompt
    (match question req with Some q => q | None => EmptyString end)
    (match answer req with Some a => a | None => EmptyString end)
    (match bloom_level req with Some b => b | None => EmptyString end)
    (match max_score req with Some m => m | None => 10%Q end)
    (match rubric req with Some r => r | None => [] end).

Definition sent (req : grading_request) : event :=
  ChatCompletion "gpt-4" systemMessage (promptOf req) (1 # 2) 1000.

(** The state after that one call. *)
Definition sentState (req : grading_request) (st : state) : state :=
  mkState (gets st) (trace st ++ [sent req]).

(** A pattern that can only match where three backticks start. *)
Definition respectsFence (matchAt : string -> option nat) : Prop :=
  forall s, startsFence s = false -> matchAt s = None.

(** *** Vocabulary for the handler's answers *)



Definition invalidStructure : response :=
  mkResponse 500 (Failure "Invalid grading response structure from AI.").


(** What the structure check lets through: an object with a numeric
    [score] and truthy [feedback] and [breakdown]. *)
Definition shapeOk (v : value) : bool :=
  match v with
  | VObj props =>
      isNumber (JSON.getProp props (widen "score"))
      && truthyOpt (JSON.getProp props (widen "feedback"))
      && truthyOpt (JSON.getProp props (widen "breakdown"))
  | _ => false
  end.

(** A pattern that matches exactly where three backticks start, and then
    takes at least one character. *)
Definition fencePattern (matchAt : string -> option nat) : Prop :=
  forall s,
    (startsFence s = false -> matchAt s = None)
    /\ (startsFence s = true -> exists k, matchAt s = Some (S k)).

End Essay.

(** ** Sample grading requests and replies *)

Module EssaySamples.
Import JS Essay.

Definition quoted (s : string) : string :=
  (String (ascii_of_nat 34) s ++ String (ascii_of_nat 34) EmptyString)%string.

(** [{question: "What is 2+2?", answer: "4",
      rubric: {accuracy: "correctness"}, max_score: 10}] *)
Definition arithmetic : grading_request :=
  mkRequest (Some "What is 2+2?") (Some "4")
            (Some [("accuracy", "correctness")]) (Some 10%Q) None.

(** A reply whose score is far above [max_score] and whose breakdown
    [max] is not [max_score / 1]:
    [{"score":999,"feedback":"ok","breakdown":{"accuracy":{"max":7}}}] *)
Definition overScore : string :=
  ("{" ++ quoted "score" ++ ":999," ++ quoted "feedback" ++ ":"
   ++ quoted "ok" ++ "," ++ quoted "breakdown" ++ ":{"
   ++ quoted "accuracy" ++ ":{" ++ quoted "max" ++ ":7}}}")%string.

Definition overScoreValue : value :=
  VObj [(widen "score", VNum 999%Q); (widen "feedback", VStr (widen "ok"));
        (widen "breakdown",
         VObj [(widen "accuracy", VObj [(widen "max", VNum 7%Q)])])].

Definition fullMarksValue : value :=
  VObj [(widen "score", VNum 10%Q); (widen "max_score", VNum 10%Q);
        (widen "feedback", VStr (widen "Correct"));
        (widen "breakdown", VObj [])].

(** A fenced reply that is not JSON. *)
Definition fencedProse : string := (backticks ++ "oops" ++ backticks)%string.

(** The JSON string made of three backticks. *)
Definition backtickPayload : string := quoted backticks.

(** A well-formed reply:
    [{"score":10,"max_score":10,"feedback":"Correct","breakdown":{}}] *)
Definition fullMarks : string :=
  ("{" ++ quoted "score" ++ ":10," ++ quoted "max_score" ++ ":10,"
   ++ quoted "feedback" ++ ":" ++ quoted "Correct" ++ ","
   ++ quoted "breakdown" ++ ":{}}")%string.

Definition replies (content : string) : world :=
  mkWorld (inr (Some content)).

End EssaySamples.

(** ** More grading requests and replies *)

Module MoreEssaySamples.
Import JS Essay.



(** A completion call that is refused. *)
Definition refused : world :=
  mkWorld (inl (Error "429 You exceeded your current quota")).

(** A reply that is JSON but not an object:  [[1,2]]. *)
Definition arrayReply : string := "[1,2]".

(** A reply that parses to [null], in a fence. *)
Definition nullReply : string := fenced "json" "null".

End MoreEssaySamples.

(* ================================================================== *)
(** * Part II: properties                                              *)
(* ================================================================== *)

(** ** Strings *)

Section StringFacts.
Import JS.

Lemma split_cons (sep : ascii) (s : string) :
  exists h t, split sep s = h :: t.
Proof.
  induction s as [|c r [h [t IH]]]; simpl.
  - now exists EmptyString, [].
  - destruct (Ascii.eqb c sep).
    + now exists EmptyString, (split sep r).
    + rewrite IH. now exists (String c h), t.
Qed.

Lemma pop_cons (x y : string) (l : list string) :
  pop (x :: y :: l) = pop (y :: l).
Proof. reflexivity. Qed.

Lemma split_no_sep (sep : ascii) (s : string) :
  OCR.occurs sep s = false -> split sep s = [s].
Proof.
  induction s as [|c r IH]; simpl; intros H.
  - reflexivity.
  - apply orb_false_iff in H as [Hc Hr].
    rewrite Hc, (IH Hr). reflexivity.
Qed.

Lemma split_suffix (sep : ascii) (pre suf : string) :
  OCR.occurs sep suf = false ->
  exists h t, split sep (pre ++ String sep suf) = h :: t /\ pop t = Some suf.
Proof.
  intros Hsuf. induction pre as [|c r (h & t & E & Hp)]; simpl.
  - rewrite Ascii.eqb_refl, (split_no_sep _ _ Hsuf).
    now exists EmptyString, [suf].
  - rewrite E. destruct (Ascii.eqb c sep).
    + exists EmptyString, (h :: t). split; [reflexivity|].
      destruct t; [discriminate|]. rewrite pop_cons. exact Hp.
    + now exists (String c h), t.
Qed.

(** [split] then [pop] reads the text after the last separator. *)
Lemma pop_split_suffix (sep : ascii) (pre suf : string) :
  OCR.occurs sep suf = false ->
  pop (split sep (pre ++ String sep suf)) = Some suf.
Proof.
  intros Hsuf.
  destruct (split_suffix sep pre suf Hsuf) as (h & t & E & Hp).
  rewrite E. destruct t; [discriminate|]. rewrite pop_cons. exact Hp.
Qed.

(** *** Whitespace and [trim] *)

Lemma trimStart_empty (s : string) :
  trimStart s = EmptyString <-> OCR.isBlankLine s = true.
Proof.
  unfold OCR.isBlankLine. induction s as [|c r IH]; simpl.
  - tauto.
  - destruct (isWhiteSpace c); simpl; [exact IH|]. split; discriminate.
Qed.

Lemma trimEnd_empty (s : string) :
  trimEnd s = EmptyString <-> OCR.isBlankLine s = true.
Proof.
  unfold OCR.isBlankLine. induction s as [|c r IH]; simpl.
  - tauto.
  - destruct (trimEnd r) eqn:E.
    + destruct (isWhiteSpace c); simpl.
      * tauto.
      * split; discriminate.
    + rewrite andb_true_iff. split; [discriminate|].
      intros [_ H]. apply IH in H. discriminate.
Qed.

Lemma isBlankLine_trimStart (s : string) :
  OCR.isBlankLine (trimStart s) = OCR.isBlankLine s.
Proof.
  unfold OCR.isBlankLine. induction s as [|c r IH]; simpl.
  - reflexivity.
  - destruct (isWhiteSpace c) eqn:E; simpl; [exact IH|]. now rewrite E.
Qed.

Lemma trim_empty (s : string) :
  trim s = EmptyString <-> OCR.isBlankLine s = true.
Proof.
  unfold trim. now rewrite trimEnd_empty, isBlankLine_trimStart.
Qed.

(** A line passes [filter(l => l.trim())] exactly when it is not blank. *)
Lemma truthy_trim (s : string) :
  truthyStr (trim s) = negb (OCR.isBlankLine s).
Proof.
  destruct (OCR.isBlankLine s) eqn:E.
  - apply trim_empty in E. now rewrite E.
  - destruct (trim s) eqn:T; [|reflexivity].
    apply trim_empty in T. congruence.
Qed.

(** The handlers' test [!s || s.trim() === ''] says: no visible
    character. *)
Lemma blank_spec (s : string) : blank s = OCR.isBlankLine s.
Proof.
  unfold blank. destruct (OCR.isBlankLine s) eqn:E.
  - apply trim_empty in E. rewrite E. apply orb_true_r.
  - destruct s as [|c r]; [discriminate|]. simpl negb. simpl orb.
    destruct (trim (String c r)) eqn:T; [|reflexivity].
    apply trim_empty in T. congruence.
Qed.

Lemma isBlankLine_app (a b : string) :
  OCR.isBlankLine (a ++ b) = OCR.isBlankLine a && OCR.isBlankLine b.
Proof.
  unfold OCR.isBlankLine. induction a as [|c r IH]; simpl.
  - reflexivity.
  - now rewrite IH, andb_assoc.
Qed.

(** A text is blank exactly when each of its lines is. *)
Lemma isBlankLine_split (s : string) :
  OCR.isBlankLine s = forallb OCR.isBlankLine (split OCR.LF s).
Proof.
  induction s as [|c r IH].
  - reflexivity.
  - simpl split. destruct (Ascii.eqb c OCR.LF) eqn:E.
    + apply Ascii.eqb_eq in E. subst c. simpl forallb. rewrite <- IH.
      reflexivity.
    + destruct (split_cons OCR.LF r) as (h & t & Hs). rewrite Hs in *.
      change (OCR.isBlankLine (String c r))
        with (isWhiteSpace c && OCR.isBlankLine r).
      rewrite IH. simpl forallb.
      change (OCR.isBlankLine (String c h))
        with (isWhiteSpace c && OCR.isBlankLine h).
      now rewrite andb_assoc.
Qed.

Lemma isBlankLine_join (ls : list string) :
  OCR.isBlankLine (join OCR.nl ls) = forallb OCR.isBlankLine ls.
Proof.
  unfold join. induction ls as [|l [|l' ls] IH].
  - reflexivity.
  - simpl. now rewrite andb_true_r.
  - change (String.concat OCR.nl (l :: l' :: ls))
      with (l ++ OCR.nl ++ String.concat OCR.nl (l' :: ls))%string.
    rewrite !isBlankLine_app, IH. reflexivity.
Qed.

(** *** [split] and [join] *)

Lemma split_pieces (sep : ascii) (s : string) :
  Forall (fun l => OCR.occurs sep l = false) (split sep s).
Proof.
  induction s as [|c r IH]; simpl.
  - now constructor.
  - destruct (Ascii.eqb c sep) eqn:E.
    + now constructor.
    + destruct (split sep r) as [|h t].
      * constructor; [|constructor]. simpl. now rewrite E.
      * inversion IH; subst. constructor; [|assumption].
        simpl. now rewrite E.
Qed.

Lemma split_app_sep (sep : ascii) (a b : string) :
  OCR.occurs sep a = false ->
  split sep (a ++ String sep b) = a :: split sep b.
Proof.
  induction a as [|c r IH]; simpl; intros H.
  - now rewrite Ascii.eqb_refl.
  - apply orb_false_iff in H as [Hc Hr]. now rewrite Hc, (IH Hr).
Qed.

(** Joining lines that hold no separator and splitting again gives the
    lines back, provided there is at least one. *)
Lemma split_join (sep : ascii) (ls : list string) :
  ls <> [] ->
  Forall (fun l => OCR.occurs sep l = false) ls ->
  split sep (join (String sep EmptyString) ls) = ls.
Proof.
  unfold join. induction ls as [|l [|l' ls] IH]; intros Hne Hall.
  - congruence.
  - inversion Hall; subst. now apply split_no_sep.
  - inversion Hall; subst.
    change (String.concat (String sep EmptyString) (l :: l' :: ls))
      with (l ++ String sep (String.concat (String sep EmptyString)
                                            (l' :: ls)))%string.
    rewrite split_app_sep by assumption.
    now rewrite IH.
Qed.

End StringFacts.

(** ** The file type gate *)

Section Gate.
Import JS Eff OCR.

Variable w : world.

(** The extension is the lowercased text after the last ['.']. *)
Lemma fileExt_after_last_dot (pre suf : string) :
  occurs dot suf = false ->
  fileExt (pre ++ String dot suf) = toLowerCase suf.
Proof.
  intros H. unfold fileExt. now rewrite (pop_split_suffix dot pre suf H).
Qed.

Lemma fileExt_no_dot (name : string) :
  occurs dot name = false -> fileExt name = toLowerCase name.
Proof.
  intros H. unfold fileExt. now rewrite (split_no_sep dot name H).
Qed.

Lemma handler_supported (file : uploaded_file) (st : state) :
  includes supportedExtensions (fileExt (originalname file)) = true ->
  handler w (Some file) st = extract w file (fileExt (originalname file)) st.
Proof. intros H. unfold handler. now rewrite H. Qed.

(** Whatever the try block answers, it is not the gate's rejection. *)
Lemma extract_not_unsupported (file : uploaded_file) (ext : string)
    (st : state) :
  fst (extract w file ext st) <> inr unsupported.
Proof.
  unfold extract, try_catch.
  destruct (String.eqb ext "pdf").
  - unfold extractPdf, bind, settle, try_catch, ret.
    destruct (pdf w (buffer file)) as [e|d]; simpl; [discriminate|].
    match goal with
    | |- context [processImageWithOCR ?a ?b ?c ?d] =>
        destruct (processImageWithOCR a b c d) as [[e|t] st']
    end; simpl.
    + destruct (blank _); simpl; discriminate.
    + destruct (truthyStr t && truthyStr (trim t)); simpl;
        destruct (blank _); simpl; discriminate.
  - unfold extractImage, bind, ret.
    destruct (processImageWithOCR w (buffer file) (mimetype file) st)
      as [[e|t] st']; simpl; [discriminate|].
    destruct (blank t); simpl; discriminate.
Qed.

(** C1.  A file whose extension (the lowercased text after the last ['.']
    of its name) is none of jpg, jpeg, png, pdf is answered with the 400
    rejection, and the handler leaves the state as it found it: no POST
    to the OCR service, no GET of a job location, nothing at all is
    sent. *)
Theorem gate_rejects_unsupported (file : uploaded_file) (st : state) :
  includes supportedExtensions (fileExt (originalname file)) = false ->
  handler w (Some file) st = (inr unsupported, st)
  /\ statusCode unsupported = 400
  /\ filter isOcrCall (trace (snd (handler w (Some file) initial))) = [].
Proof.
  intros H. unfold handler. rewrite H. simpl. now unfold ret.
Qed.

(** C10.  A name without any ['.'] is its own extension once lowercased,
    so a file called pdf, jpg, jpeg or png passes the gate and is handed
    to the extraction code instead of being rejected. *)
Theorem gate_no_dot_whole_name (file : uploaded_file) (st : state) :
  occurs dot (originalname file) = false ->
  fileExt (originalname file) = toLowerCase (originalname file)
  /\ (In (toLowerCase (originalname file)) supportedExtensions ->
      handler w (Some file) st
        = extract w file (toLowerCase (originalname file)) st
      /\ fst (handler w (Some file) st) <> inr unsupported).
Proof.
  intros Hdot. pose proof (fileExt_no_dot _ Hdot) as E.
  split; [exact E|]. intros Hin.
  assert (Hs : includes supportedExtensions (fileExt (originalname file))
               = true).
  { rewrite E. unfold includes. apply existsb_exists.
    exists (toLowerCase (originalname file)). split; [exact Hin|].
    apply String.eqb_refl. }
  rewrite (handler_supported file st Hs), E.
  split; [reflexivity|]. apply extract_not_unsupported.
Qed.

End Gate.

(** ** The OCR client *)

Section Client.
Import JS Eff OCR.

Variable w : world.

(** The two nested loops visit the pages in order and, within a page, the
    lines in order. *)
Lemma collectLines_flat (ps : list page) :
  collectLines ps = recognizedLines ps.
Proof.
  unfold collectLines, recognizedLines.
  assert (inner : forall ls acc,
            fold_left (fun acc l => acc ++ [content l]) ls acc
            = acc ++ map content ls).
  { induction ls as [|l ls IH]; intros acc; simpl.
    - now rewrite app_nil_r.
    - rewrite IH, <- app_assoc. reflexivity. }
  assert (outer : forall acc,
            fold_left (fun acc p =>
                         fold_left (fun acc l => acc ++ [content l])
                                   (lines p) acc) ps acc
            = acc ++ flat_map (fun p => map content (lines p)) ps).
  { induction ps as [|p ps IH]; intros acc; simpl.
    - now rewrite app_nil_r.
    - rewrite IH, inner, <- app_assoc. reflexivity. }
  apply (outer []).
Qed.

Lemma pollTrace_snoc (loc key : string) (n : nat) :
  pollTrace loc key (S n)
  = pollTrace loc key n ++ [SetTimeout 1000; AxiosGet loc key].
Proof.
  induction n as [|n IH].
  - reflexivity.
  - simpl in *. now rewrite <- IH.
Qed.

(** One round of the loop on a pending reply. *)
Lemma pollLoop_pending (loc key : string) (m : nat) (st : state) :
  pending (get_reply w (gets st)) ->
  pollLoop w loc key (S m) st
  = pollLoop w loc key m
      (mkState (S (gets st))
               (trace st ++ [SetTimeout 1000; AxiosGet loc key])).
Proof.
  intros (d & E & Hs & Hf).
  simpl. unfold bind, sleep, emit, axios_get. simpl.
  rewrite E, Hs, Hf, <- app_assoc. reflexivity.
Qed.

Lemma pollLoop_succeeded (loc key : string) (m : nat) (st : state)
    (r : analyze_result) :
  get_reply w (gets st) = inr (mkPoll "succeeded" (Some r)) ->
  pollLoop w loc key (S m) st
  = (inr (join nl (collectLines (pages r))),
     mkState (S (gets st))
             (trace st ++ [SetTimeout 1000; AxiosGet loc key])).
Proof.
  intros E. simpl. unfold bind, sleep, emit, axios_get, ret. simpl.
  rewrite E, <- app_assoc. reflexivity.
Qed.

Lemma pollLoop_failed (loc key : string) (m : nat) (st : state)
    (d : poll_data) :
  get_reply w (gets st) = inr d -> status d = "failed" ->
  pollLoop w loc key (S m) st
  = (inl (Error "Azure OCR failed"),
     mkState (S (gets st))
             (trace st ++ [SetTimeout 1000; AxiosGet loc key])).
Proof.
  intros E Hs. simpl. unfold bind, sleep, emit, axios_get, throw. simpl.
  rewrite E, Hs, <- app_assoc. reflexivity.
Qed.

(** [n] rounds on pending replies. *)
Lemma pollLoop_skip (loc key : string) (n m : nat) (st : state) :
  (forall i, i < n -> pending (get_reply w (gets st + i))) ->
  pollLoop w loc key (n + m) st
  = pollLoop w loc key m
      (mkState (gets st + n) (trace st ++ pollTrace loc key n)).
Proof.
  revert st. induction n as [|n IH]; intros st H.
  - simpl. rewrite Nat.add_0_r, app_nil_r. now destruct st.
  - change (S n + m) with (S (n + m)).
    rewrite pollLoop_pending
      by (specialize (H 0); rewrite Nat.add_0_r in H; apply H; lia).
    rewrite IH.
    + simpl gets. simpl trace. rewrite <- app_assoc.
      now replace (S (gets st) + n) with (gets st + S n) by lia.
    + intros i Hi. simpl gets.
      replace (S (gets st) + i) with (gets st + S i) by lia.
      apply H. lia.
Qed.

Lemma getCount_round (tr : list event) (loc key : string) :
  getCount ((tr ++ [SetTimeout 1000]) ++ [AxiosGet loc key])
  = S (getCount tr).
Proof.
  unfold getCount. rewrite !filter_app, !length_app. simpl. lia.
Qed.

(** However the service answers, [n] rounds issue at most [n] GETs. *)
Lemma pollLoop_gets (loc key : string) (n : nat) (st : state) :
  getCount (trace (snd (pollLoop w loc key n st)))
  <= getCount (trace st) + n.
Proof.
  revert st. induction n as [|n IH]; intros st; simpl.
  - unfold throw. simpl. lia.
  - unfold bind, sleep, emit, axios_get. simpl.
    pose proof (getCount_round (trace st) loc key) as R.
    destruct (get_reply w (gets st)) as [e|d]; simpl; [lia|].
    destruct (String.eqb (status d) "succeeded").
    + destruct (analyzeResult d); simpl; lia.
    + destruct (String.eqb (status d) "failed"); simpl; [lia|].
      etransitivity; [apply IH|]. simpl. lia.
Qed.

Lemma processImageWithOCR_submitted (buf : list Byte.byte)
    (mime loc : string) :
  post_reply w = inr (Some loc) -> truthyStr loc = true ->
  processImageWithOCR w buf mime initial
  = pollLoop w loc (AZURE_OCR_KEY w) maxAttempts
      (mkState 0 [AxiosPost (AZURE_OCR_ENDPOINT w ++ analyzePath) buf mime
                            (AZURE_OCR_KEY w)]).
Proof.
  intros Hp Ht. cbv [processImageWithOCR axios_post bind emit settle].
  now rewrite Hp, Ht.
Qed.

Lemma processImageWithOCR_gets (buf : list Byte.byte) (mime : string) :
  getCount (trace (snd (processImageWithOCR w buf mime initial)))
  <= maxAttempts.
Proof.
  cbv [processImageWithOCR axios_post bind emit settle].
  destruct (post_reply w) as [e|[loc|]];
    try (cbn; unfold maxAttempts; lia).
  destruct (truthyStr loc); try (cbn; unfold maxAttempts; lia).
  etransitivity; [apply pollLoop_gets|]. cbn. lia.
Qed.

(** C2.  Once the job location is known, the client waits one second
    before every GET of it and issues at most 15 GETs.  If the first [n]
    replies are pending and reply [n] (with [n < 15]) has status
    succeeded, the result is every recognized line, in page order then
    line order, joined by newline; if that reply has status failed, the
    error Azure OCR failed is thrown; if all 15 replies are pending, the
    error OCR timeout is thrown.  In each case the trace is the submission
    followed by exactly the rounds made. *)
Theorem processImageWithOCR_polls (buf : list Byte.byte)
    (mime loc : string) (n : nat) :
  post_reply w = inr (Some loc) -> truthyStr loc = true ->
  (forall i, i < n -> pending (get_reply w i)) ->
  n <= maxAttempts ->
  let key := AZURE_OCR_KEY w in
  let submit :=
    AxiosPost (AZURE_OCR_ENDPOINT w ++ analyzePath) buf mime key in
  let run := processImageWithOCR w buf mime initial in
  let after := fun k => mkState k (submit :: pollTrace loc key k) in
  maxAttempts = 15
  /\ getCount (trace (snd run)) <= maxAttempts
  /\ (n < maxAttempts ->
      forall r, get_reply w n = inr (mkPoll "succeeded" (Some r)) ->
      run = (inr (join nl (recognizedLines (pages r))), after (S n)))
  /\ (n < maxAttempts ->
      forall d, get_reply w n = inr d -> status d = "failed" ->
      run = (inl (Error "Azure OCR failed"), after (S n)))
  /\ (n = maxAttempts ->
      run = (inl (Error "OCR timeout"), after maxAttempts)).
Proof.
  intros Hp Ht Hpend Hn key submit run after.
  split; [reflexivity|]. split; [apply processImageWithOCR_gets|].
  assert (Hrun : forall m, n + m = maxAttempts ->
            run = pollLoop w loc key m (after n)).
  { intros m Hm. unfold run.
    rewrite (processImageWithOCR_submitted buf mime loc Hp Ht), <- Hm.
    now rewrite pollLoop_skip by (simpl; exact Hpend). }
  assert (Hround : forall k, after (S k)
            = mkState (S (gets (after k)))
                (trace (after k) ++ [SetTimeout 1000; AxiosGet loc key])).
  { intros k. unfold after. now rewrite pollTrace_snoc. }
  repeat split.
  - intros Hlt r Hr.
    rewrite (Hrun (S (maxAttempts - S n))) by lia.
    rewrite (pollLoop_succeeded loc key _ (after n) r Hr).
    now rewrite collectLines_flat, <- Hround.
  - intros Hlt d Hd Hs.
    rewrite (Hrun (S (maxAttempts - S n))) by lia.
    rewrite (pollLoop_failed loc key _ (after n) d Hd Hs).
    now rewrite <- Hround.
  - intros ->. rewrite (Hrun 0) by lia. reflexivity.
Qed.

End Client.

Lemma processImageWithOCR_polls_witness :
  OCR.processImageWithOCR Samples.succeedsOnThird [] "image/png" Eff.initial
  = (inr (JS.join OCR.nl ["alpha"; "beta"; "gamma"]),
     Eff.mkState 3
       (Eff.AxiosPost (OCR.AZURE_OCR_ENDPOINT Samples.succeedsOnThird
                         ++ OCR.analyzePath) [] "image/png" "secret"
        :: OCR.pollTrace "https://ocr.example/job/1" "secret" 3)).
Proof.
  assert (Hpend : forall i, i < 2 ->
            OCR.pending (OCR.get_reply Samples.succeedsOnThird i)).
  { intros i Hi. exists (OCR.mkPoll "running" None).
    destruct i as [|[|i]]; [now split | now split | lia]. }
  assert (Hle : 2 <= OCR.maxAttempts) by (unfold OCR.maxAttempts; lia).
  destruct (processImageWithOCR_polls Samples.succeedsOnThird []
              "image/png" "https://ocr.example/job/1" 2
              eq_refl eq_refl Hpend Hle) as (_ & _ & Hok & _).
  apply (Hok ltac:(unfold OCR.maxAttempts; lia) Samples.twoPages eq_refl).
Defined.

(** ** The deduplication step of the PDF branch *)

Section Dedup.
Import JS OCR.

Lemma filter_twice {A} (f g : A -> bool) (l : list A) :
  filter f (filter g l) = filter (fun x => g x && f x) l.
Proof.
  induction l as [|a l IH]; simpl; [reflexivity|].
  destruct (g a); simpl; [destruct (f a)|]; now rewrite IH.
Qed.

Lemma includes_app (a b : list string) (x : string) :
  includes (a ++ b) x = includes a x || includes b x.
Proof. unfold includes. apply existsb_app. Qed.

Lemma includes_In (l : list string) (x : string) :
  includes l x = true <-> In x l.
Proof.
  unfold includes. rewrite existsb_exists. split.
  - intros (y & Hy & E). apply String.eqb_eq in E. now subst.
  - intros H. exists x. split; [assumption | apply String.eqb_refl].
Qed.

(** A [Set] filled from an array lists the first occurrences, whatever it
    held before. *)
Lemma Set_fold (ls acc : list string) :
  fold_left Set_add ls acc
  = acc ++ filter (fun x => negb (includes acc x)) (firstOccurrences ls).
Proof.
  revert acc. induction ls as [|l ls IH]; intros acc; simpl.
  - now rewrite app_nil_r.
  - rewrite IH. unfold Set_add. destruct (includes acc l) eqn:E; simpl.
    + f_equal. rewrite filter_twice. apply filter_ext. intros x.
      destruct (String.eqb x l) eqn:Ex; simpl; [|reflexivity].
      apply String.eqb_eq in Ex. subst x. now rewrite E.
    + rewrite <- app_assoc. simpl. f_equal. f_equal.
      rewrite filter_twice. apply filter_ext. intros x.
      rewrite includes_app. unfold includes at 2. simpl.
      rewrite orb_false_r, negb_orb. apply andb_comm.
Qed.

Lemma Set_from_firstOccurrences (ls : list string) :
  Set_from ls = firstOccurrences ls.
Proof.
  unfold Set_from. rewrite Set_fold. simpl.
  induction (firstOccurrences ls) as [|x l IH]; simpl; congruence.
Qed.

Lemma firstOccurrences_In (ls : list string) (x : string) :
  In x (firstOccurrences ls) <-> In x ls.
Proof.
  induction ls as [|l ls IH]; simpl; [tauto|].
  rewrite filter_In, IH, negb_true_iff, String.eqb_neq.
  destruct (String.eqb_spec x l) as [->|N]; [tauto|].
  split; [intros [E|[H _]] | intros [E|H]]; auto; congruence.
Qed.

Lemma NoDup_filter {A} (f : A -> bool) (l : list A) :
  NoDup l -> NoDup (filter f l).
Proof.
  induction 1 as [|a l Hin Hnd IH]; simpl; [constructor|].
  destruct (f a); [|assumption]. constructor; [|assumption].
  rewrite filter_In. tauto.
Qed.

Lemma firstOccurrences_NoDup (ls : list string) :
  NoDup (firstOccurrences ls).
Proof.
  induction ls as [|l ls IH]; simpl; constructor.
  - rewrite filter_In, String.eqb_refl. intros [_ H]. discriminate.
  - now apply NoDup_filter.
Qed.

Lemma sorted_map_filter {A} (f : A -> nat) (g : A -> bool) (l : list A) :
  StronglySorted lt (map f l) -> StronglySorted lt (map f (filter g l)).
Proof.
  induction l as [|a l IH]; simpl; intros H; [constructor|].
  inversion H as [|? ? Hs Hall]; subst.
  destruct (g a); simpl; [|now apply IH].
  constructor; [now apply IH|].
  rewrite Forall_forall in *. intros n Hn. apply Hall.
  rewrite in_map_iff in *. destruct Hn as (x & <- & Hx).
  apply filter_In in Hx. exists x. tauto.
Qed.

Lemma sorted_map_S (l : list nat) :
  StronglySorted lt l -> StronglySorted lt (map S l).
Proof.
  induction 1 as [|a l Hs IH Hall]; simpl; constructor; [assumption|].
  rewrite Forall_forall in *. intros n Hn.
  apply in_map_iff in Hn as (m & <- & Hm). apply Hall in Hm. lia.
Qed.

(** The lines that survive stand in the order of their first occurrence
    in the input. *)
Lemma firstOccurrences_order (keep : string -> bool) (ls : list string) :
  StronglySorted lt
    (map (fun l => indexOf l ls) (firstOccurrences (filter keep ls))).
Proof.
  induction ls as [|y ls IH]; simpl; [constructor|].
  assert (Hshift : forall kept,
            (forall x, In x kept -> x <> y) ->
            map (fun l => if String.eqb l y then 0 else S (indexOf l ls)) kept
            = map S (map (fun l => indexOf l ls) kept)).
  { intros kept Hk. rewrite map_map. apply map_ext_in. intros x Hx.
    apply Hk in Hx. apply String.eqb_neq in Hx. now rewrite Hx. }
  destruct (keep y) eqn:Ky; simpl.
  - rewrite String.eqb_refl, Hshift.
    + constructor.
      * now apply sorted_map_S, sorted_map_filter.
      * rewrite Forall_forall. intros n Hn.
        apply in_map_iff in Hn as (m & <- & _). lia.
    + intros x Hx. apply filter_In in Hx as [_ Hx].
      now apply negb_true_iff, String.eqb_neq in Hx.
  - rewrite Hshift; [now apply sorted_map_S|].
    intros x Hx. apply firstOccurrences_In, filter_In in Hx as [_ Hx].
    congruence.
Qed.

Lemma firstOccurrences_nil (ls : list string) :
  firstOccurrences ls = [] -> ls = [].
Proof. destruct ls; [reflexivity | discriminate]. Qed.

Lemma dedupLines_spec (text : string) :
  dedupLines text
  = firstOccurrences
      (filter (fun l => negb (isBlankLine l)) (split LF text)).
Proof.
  unfold dedupLines. rewrite Set_from_firstOccurrences. f_equal.
  apply filter_ext. intros l. apply truthy_trim.
Qed.

(** A text with a visible character keeps at least one line. *)
Lemma dedupLines_nonempty (text : string) :
  blank text = false -> dedupLines text <> [].
Proof.
  rewrite blank_spec, isBlankLine_split, dedupLines_spec. intros H Hnil.
  apply firstOccurrences_nil in Hnil.
  assert (Hall : forallb isBlankLine (split LF text) = true); [|congruence].
  apply forallb_forall. intros l Hl.
  destruct (isBlankLine l) eqn:E; [reflexivity|].
  assert (Hin : In l (filter (fun l => negb (isBlankLine l))
                             (split LF text))).
  { apply filter_In. now rewrite E. }
  rewrite Hnil in Hin. destruct Hin.
Qed.

Lemma dedupLines_visible (text : string) :
  Forall (fun l => isBlankLine l = false) (dedupLines text).
Proof.
  rewrite dedupLines_spec, Forall_forall. intros l Hl.
  apply firstOccurrences_In, filter_In in Hl as [_ Hl].
  now apply negb_true_iff in Hl.
Qed.

(** The deduplicated text of a non-blank text is not blank. *)
Lemma dedup_not_blank (text : string) :
  blank text = false -> blank (dedup text) = false.
Proof.
  intros H. rewrite blank_spec. unfold dedup. rewrite isBlankLine_join.
  pose proof (dedupLines_nonempty text H) as Hne.
  pose proof (dedupLines_visible text) as Hvis.
  destruct (dedupLines text) as [|l ls]; [congruence|].
  inversion Hvis; subst. simpl. now rewrite H2.
Qed.

(** C4.  The deduplication step splits the text on newline, drops the
    blank (empty or whitespace-only) lines, keeps the first occurrence of
    each exact line and joins what is left with newline.  Hence the kept
    lines are pairwise distinct, none is blank, they are exactly the
    non-blank lines of the input, and they stand in the order of their
    first occurrence in the input; for a text that reaches the step (one
    that is not blank) the lines of the output are these kept lines. *)
Theorem dedup_first_occurrences (text : string) :
  let input := split LF text in
  let kept :=
    firstOccurrences (filter (fun l => negb (isBlankLine l)) input) in
  dedup text = join nl kept
  /\ NoDup kept
  /\ Forall (fun l => isBlankLine l = false) kept
  /\ (forall l, In l kept <-> In l input /\ isBlankLine l = false)
  /\ StronglySorted lt (map (fun l => indexOf l input) kept)
  /\ (blank text = false -> split LF (dedup text) = kept).
Proof.
  intros input kept.
  assert (E : dedupLines text = kept) by apply dedupLines_spec.
  assert (Hin : forall l,
            In l kept <-> In l input /\ isBlankLine l = false).
  { intros l. unfold kept.
    rewrite firstOccurrences_In, filter_In, negb_true_iff. tauto. }
  split; [unfold dedup; now rewrite E|].
  split; [apply firstOccurrences_NoDup|].
  split; [rewrite <- E; apply dedupLines_visible|].
  split; [exact Hin|].
  split; [apply firstOccurrences_order|].
  intros Hb. unfold dedup, nl. rewrite E. apply split_join.
  - rewrite <- E. now apply dedupLines_nonempty.
  - rewrite Forall_forall. intros l Hl. apply Hin in Hl as [Hl _].
    pose proof (split_pieces LF text) as Hp.
    rewrite Forall_forall in Hp. now apply Hp.
Qed.

End Dedup.

(** ** The OCR handler *)

Section Handler.
Import JS Eff OCR.

Variable w : world.

(** The PDF branch when the OCR client throws: the text layer alone goes
    through the blank test and the deduplication. *)
Lemma extractPdf_ocr_failed (file : uploaded_file) (st st' : state)
    (t : string) (e : error) :
  pdf w (buffer file) = inr (mkPdf (Some t)) ->
  processImageWithOCR w (buffer file) "application/pdf" st = (inl e, st') ->
  extractPdf w file st
  = (inr (if blank t
          then mkResponse 400 (Failure
            "No text found in PDF. The PDF may be empty or contain unsupported content.")
          else mkResponse 200 (Text (dedup t))), st').
Proof.
  intros Hpdf Hocr. unfold extractPdf, bind, settle, try_catch, ret.
  rewrite Hpdf. cbn [text]. rewrite Hocr.
  destruct t as [|c r]; [reflexivity|]. cbn [truthyStr].
  now destruct (blank (String c r)).
Qed.

(** C3 (amended).  For a PDF whose text layer has at least one
    non-whitespace character and for which the OCR client throws, the
    handler answers 200 and the text is the deduplicated text layer; the
    OCR error is not surfaced. *)
Theorem pdf_ocr_failure_falls_back (file : uploaded_file) (st st' : state)
    (t : string) (e : error) :
  fileExt (originalname file) = "pdf" ->
  pdf w (buffer file) = inr (mkPdf (Some t)) ->
  blank t = false ->
  processImageWithOCR w (buffer file) "application/pdf" st = (inl e, st') ->
  handler w (Some file) st = (inr (mkResponse 200 (Text (dedup t))), st').
Proof.
  intros Hext Hpdf Hvis Hocr.
  unfold handler. rewrite Hext. cbn [includes supportedExtensions existsb].
  replace (negb _) with false by reflexivity.
  unfold extract, try_catch. cbn [String.eqb Ascii.eqb Bool.eqb].
  rewrite (extractPdf_ocr_failed file st st' t e Hpdf Hocr), Hvis.
  reflexivity.
Qed.

(** C9.  A 200 answer of the handler carries a text with at least one
    non-whitespace character, on the PDF path and on the image path. *)
Theorem success_text_not_blank (file : option uploaded_file)
    (st st' : state) (r : response) :
  handler w file st = (inr r, st') ->
  statusCode r = 200 ->
  exists t, json r = Text t /\ blank t = false /\ isBlankLine t = false.
Proof.
  unfold handler. destruct file as [file|]; [|intros [= <- _]; discriminate].
  destruct (negb _); [intros [= <- _]; discriminate|].
  unfold extract, try_catch.
  destruct (String.eqb (fileExt (originalname file)) "pdf").
  - unfold extractPdf, bind, settle, try_catch, ret.
    destruct (pdf w (buffer file)) as [e|d]; [intros [= <- _]; discriminate|].
    set (layer := match text d with
                  | Some t => if truthyStr t then t else EmptyString
                  | None => EmptyString
                  end).
    destruct (processImageWithOCR w (buffer file) "application/pdf" st)
      as [[e|ocrText] st1].
    + destruct (blank layer) eqn:B; intros [= <- _]; [discriminate|].
      intros _. exists (dedup layer).
      pose proof (dedup_not_blank layer B) as D.
      repeat split; [exact D | now rewrite <- blank_spec].
    + destruct (truthyStr ocrText && truthyStr (trim ocrText)).
      * destruct (blank (layer ++ nl ++ nl ++ ocrText)) eqn:B;
          intros [= <- _]; [discriminate|].
        intros _. exists (dedup (layer ++ nl ++ nl ++ ocrText)).
        pose proof (dedup_not_blank _ B) as D.
        repeat split; [exact D | now rewrite <- blank_spec].
      * destruct (blank layer) eqn:B; intros [= <- _]; [discriminate|].
        intros _. exists (dedup layer).
        pose proof (dedup_not_blank layer B) as D.
        repeat split; [exact D | now rewrite <- blank_spec].
  - unfold extractImage, bind, ret.
    destruct (processImageWithOCR w (buffer file) (mimetype file) st)
      as [[e|t] st1]; [intros [= <- _]; discriminate|].
    destruct (blank t) eqn:B; intros [= <- _]; [discriminate|].
    intros _. exists t. repeat split; [exact B | now rewrite <- blank_spec].
Qed.

End Handler.

(** C3, as the specification words it, fails: a text layer of two newlines
    (what a scanned PDF yields) is not empty, the OCR call throws, and the
    handler answers 400. *)
Lemma pdf_whitespace_layer_rejected :
  let layer := (OCR.nl ++ OCR.nl)%string in
  layer <> EmptyString
  /\ OCR.pdf (Samples.ocrDown layer) [] = inr (OCR.mkPdf (Some layer))
  /\ fst (OCR.processImageWithOCR (Samples.ocrDown layer) []
            "application/pdf" Eff.initial)
     = inl (JS.Error "Request failed with status code 401")
  /\ fst (OCR.handler (Samples.ocrDown layer) (Some Samples.scan)
            Eff.initial)
     = inr (OCR.mkResponse 400 (OCR.Failure
         "No text found in PDF. The PDF may be empty or contain unsupported content.")).
Proof.
  cbv zeta. split; [discriminate|]. repeat split.
Qed.

Lemma gate_rejects_unsupported_witness :
  OCR.handler Samples.succeedsOnThird (Some Samples.gif) Eff.initial
    = (inr OCR.unsupported, Eff.initial)
  /\ OCR.statusCode OCR.unsupported = 400
  /\ filter OCR.isOcrCall
       (Eff.trace (snd (OCR.handler Samples.succeedsOnThird
                          (Some Samples.gif) Eff.initial))) = [].
Proof.
  apply (gate_rejects_unsupported Samples.succeedsOnThird Samples.gif
           Eff.initial).
  vm_compute. reflexivity.
Defined.

Lemma gate_no_dot_whole_name_witness :
  OCR.fileExt "pdf" = "pdf"
  /\ fst (OCR.handler Samples.succeedsOnThird (Some Samples.barePdf)
            Eff.initial) <> inr OCR.unsupported.
Proof.
  destruct (gate_no_dot_whole_name Samples.succeedsOnThird Samples.barePdf
              Eff.initial eq_refl) as [E H].
  split; [exact E|]. apply H. simpl. tauto.
Defined.

Lemma pdf_ocr_failure_falls_back_witness :
  OCR.handler (Samples.ocrDown "Title") (Some Samples.scan) Eff.initial
  = (inr (OCR.mkResponse 200 (OCR.Text (OCR.dedup "Title"))),
     snd (OCR.processImageWithOCR (Samples.ocrDown "Title") []
            "application/pdf" Eff.initial)).
Proof.
  apply (pdf_ocr_failure_falls_back (Samples.ocrDown "Title") Samples.scan
           Eff.initial _ "Title"
           (JS.Error "Request failed with status code 401"));
    vm_compute; reflexivity.
Defined.

Lemma success_text_not_blank_witness :
  exists t,
    OCR.json (OCR.mkResponse 200
                (OCR.Text (JS.join OCR.nl ["alpha"; "beta"; "gamma"])))
    = OCR.Text t
    /\ JS.blank t = false /\ OCR.isBlankLine t = false.
Proof.
  apply (success_text_not_blank Samples.succeedsOnThird (Some Samples.photo)
           Eff.initial
           (snd (OCR.handler Samples.succeedsOnThird (Some Samples.photo)
                   Eff.initial))).
  - vm_compute. reflexivity.
  - reflexivity.
Defined.


(** ** Trimming and fence removal *)

Section Cleaning.
Import JS Essay.
Local Open Scope string_scope.

Lemma append_assoc (a b c : string) : (a ++ b) ++ c = a ++ (b ++ c).
Proof. induction a as [|x a IH]; simpl; congruence. Qed.

Lemma append_nil_r (a : string) : a ++ "" = a.
Proof. induction a as [|x a IH]; simpl; congruence. Qed.

Lemma trimEnd_snoc_ws (s : string) (c : ascii) :
  isWhiteSpace c = true -> trimEnd (s ++ String c "") = trimEnd s.
Proof.
  intros Hc. induction s as [|x s IH]; simpl.
  - now rewrite Hc.
  - now rewrite IH.
Qed.

Lemma trimEnd_snoc_visible (s : string) (c : ascii) :
  isWhiteSpace c = false -> trimEnd (s ++ String c "") = s ++ String c "".
Proof.
  intros Hc. induction s as [|x s IH]; simpl.
  - now rewrite Hc.
  - rewrite IH. destruct s; reflexivity.
Qed.

(** What [trimEnd] removes is a run of whitespace. *)
Lemma trimEnd_suffix (s : string) :
  exists suffix, s = trimEnd s ++ suffix
                 /\ OCR.isBlankLine suffix = true.
Proof.
  induction s as [|x s (suffix & E & Hb)]; simpl.
  - now exists "".
  - destruct (trimEnd s) as [|y t] eqn:T.
    + destruct (isWhiteSpace x) eqn:Hx.
      * exists (String x s). split; [reflexivity|].
        apply trimEnd_empty in T. unfold OCR.isBlankLine in *. simpl.
        now rewrite Hx.
      * exists suffix. simpl in E. simpl.
        split; [now rewrite <- E | exact Hb].
    + exists suffix. simpl. split; [f_equal; exact E | exact Hb].
Qed.

(** A newline before and after a text does not survive [trim]. *)
Lemma trim_between_newlines (p : string) :
  trim (String OCR.LF (p ++ OCR.nl)) = trim p.
Proof.
  unfold trim. change (trimStart (String OCR.LF (p ++ OCR.nl)))
    with (trimStart (p ++ OCR.nl)).
  induction p as [|x p IH]; simpl.
  - reflexivity.
  - destruct (isWhiteSpace x) eqn:Hx; [exact IH|].
    change (String x (p ++ OCR.nl)) with (String x p ++ OCR.nl).
    unfold OCR.nl. now rewrite trimEnd_snoc_ws.
Qed.

(** *** The two [replace] calls *)

Lemma matchFence_respects : respectsFence matchFence.
Proof. intros s H. unfold matchFence. now rewrite H. Qed.

Lemma matchFenceJson_respects : respectsFence matchFenceJson.
Proof. intros s H. unfold matchFenceJson. now rewrite H. Qed.

Lemma startsFence_before_newline (a b : string) :
  startsFence a = false -> startsFence (a ++ String OCR.LF b) = false.
Proof.
  destruct a as [|c1 [|c2 [|c3 a]]]; simpl; intros H.
  - destruct b as [|? [|? ?]]; reflexivity.
  - destruct b as [|? ?]; [reflexivity|].
    now rewrite andb_false_r.
  - now rewrite andb_false_r.
  - exact H.
Qed.

(** A fence-free text followed by a newline is copied as it is. *)
Lemma removeMatches_fenceFree (matchAt : string -> option nat)
    (a b : string) :
  respectsFence matchAt -> fenceFree a = true ->
  removeMatches matchAt 0 (a ++ String OCR.LF b)
  = a ++ String OCR.LF (removeMatches matchAt 0 b).
Proof.
  intros Hm. induction a as [|x a IH]; intros Hf.
  - change ("" ++ String OCR.LF b) with (String OCR.LF b).
    cbn [removeMatches]. rewrite Hm; [reflexivity|].
    destruct b as [|? [|? ?]]; reflexivity.
  - cbn [fenceFree] in Hf. apply andb_true_iff in Hf as [Hs Hf].
    apply negb_true_iff in Hs.
    change (String x a ++ String OCR.LF b)
      with (String x (a ++ String OCR.LF b)).
    cbn [removeMatches].
    change (String x (a ++ String OCR.LF b))
      with (String x a ++ String OCR.LF b).
    rewrite (Hm _ (startsFence_before_newline _ b Hs)).
    now rewrite (IH Hf).
Qed.

Lemma matchFenceJson_untagged (rest : string) :
  matchFenceJson (backticks ++ String OCR.LF rest) = Some 3.
Proof. destruct rest as [|? [|? [|? ?]]]; reflexivity. Qed.

Lemma matchFenceJson_tagged (j s o n : ascii) (rest : string) :
  toLowerCase (String j (String s (String o (String n ""))))  = "json" ->
  matchFenceJson
    (backticks ++ String j (String s (String o (String n rest))))
  = Some 7.
Proof.
  intros H. simpl in H. injection H as Hj Hs Ho Hn.
  unfold matchFenceJson, sameLetter. simpl.
  now rewrite Hj, Hs, Ho, Hn.
Qed.

(** The first [replace] on a fenced payload leaves the payload between
    two newlines. *)
Lemma removeMatches_fenced (tag payload : string) :
  fenceTag tag = true -> fenceFree payload = true ->
  removeMatches matchFenceJson 0 (fenced tag payload)
  = String OCR.LF (payload ++ OCR.nl).
Proof.
  intros Ht Hf. unfold fenceTag in Ht. apply orb_true_iff in Ht.
  assert (Hrest :
    removeMatches matchFenceJson 0
      (String OCR.LF (payload ++ OCR.nl ++ backticks))
    = String OCR.LF (payload ++ OCR.nl)).
  { change (String OCR.LF (payload ++ OCR.nl ++ backticks))
      with ("" ++ String OCR.LF (payload ++ OCR.nl ++ backticks)).
    rewrite (removeMatches_fenceFree _ "" _ matchFenceJson_respects eq_refl).
    simpl append. f_equal. unfold OCR.nl at 1.
    change (payload ++ String OCR.LF "" ++ backticks)
      with (payload ++ String OCR.LF backticks).
    now rewrite (removeMatches_fenceFree _ _ _ matchFenceJson_respects Hf). }
  destruct Ht as [Ht|Ht].
  - apply String.eqb_eq in Ht. subst tag. unfold fenced.
    change (backticks ++ "" ++ OCR.nl ++ payload ++ OCR.nl ++ backticks)
      with (backticks
            ++ String OCR.LF (payload ++ OCR.nl ++ backticks)).
    remember (payload ++ OCR.nl ++ backticks) as rest.
    pose proof (matchFenceJson_untagged rest) as M.
    unfold backticks in *. cbn [append removeMatches] in *. rewrite M.
    cbn [removeMatches]. exact Hrest.
  - apply String.eqb_eq in Ht.
    destruct tag as [|j [|s [|o [|n [|? ?]]]]]; try discriminate Ht.
    unfold fenced.
    change (backticks ++ String j (String s (String o (String n "")))
            ++ OCR.nl ++ payload ++ OCR.nl ++ backticks)
      with (backticks ++ String j (String s (String o (String n
              (String OCR.LF (payload ++ OCR.nl ++ backticks)))))).
    remember (payload ++ OCR.nl ++ backticks) as rest.
    pose proof (matchFenceJson_tagged j s o n (String OCR.LF rest) Ht) as M.
    unfold backticks in *. cbn [append removeMatches] in *. rewrite M.
    cbn [removeMatches]. exact Hrest.
Qed.

Lemma trim_fenced (tag payload : string) :
  trim (fenced tag payload) = fenced tag payload.
Proof.
  unfold trim, fenced. change (trimStart (backticks ++ ?x)) with (backticks ++ x).
  replace (backticks ++ tag ++ OCR.nl ++ payload ++ OCR.nl ++ backticks)
    with ((backticks ++ tag ++ OCR.nl ++ payload ++ OCR.nl
           ++ String "`" (String "`" "")) ++ String "`" "").
  - now apply trimEnd_snoc_visible.
  - now rewrite !append_assoc.
Qed.

(** Cleaning a fenced, fence-free payload gives the trimmed payload. *)
Lemma clean_fenced (tag payload : string) :
  fenceTag tag = true -> fenceFree payload = true ->
  clean (fenced tag payload) = trim payload.
Proof.
  intros Ht Hf. unfold clean.
  rewrite trim_fenced, (removeMatches_fenced tag payload Ht Hf).
  change (String OCR.LF (payload ++ OCR.nl))
    with ("" ++ String OCR.LF (payload ++ OCR.nl)).
  rewrite (removeMatches_fenceFree _ "" _ matchFence_respects eq_refl).
  simpl append. unfold OCR.nl at 1.
  rewrite (removeMatches_fenceFree _ _ _ matchFence_respects Hf).
  apply trim_between_newlines.
Qed.

End Cleaning.

(** ** [JSON.parse] and surrounding whitespace *)

Section JsonWhitespace.
Import JS JSON.
Local Open Scope string_scope.

Lemma whitespace_cases (c : ascii) :
  isWhiteSpace c = true ->
  In c (map ascii_of_nat [9; 10; 11; 12; 13; 32; 160]%nat).
Proof.
  unfold isWhiteSpace, code. intros H.
  rewrite <- (ascii_nat_embedding c).
  repeat (apply orb_true_iff in H as [H|H]);
    apply Nat.eqb_eq in H; rewrite H; simpl; tauto.
Qed.

Lemma lexFrom_app (a b : string) (st : lstate) (out : list token) :
  lexFrom st out (a ++ b)
  = match lexFrom st out a with
    | Some (st', out') => lexFrom st' out' b
    | None => None
    end.
Proof.
  revert st out. induction a as [|x a IH]; intros st out; simpl.
  - reflexivity.
  - destruct (lexStep st x) as [[st' ts]|]; [apply IH | reflexivity].
Qed.

(** A whitespace character that the lexer accepts ends the token in
    progress, if any, and leaves the lexer between tokens. *)
Lemma lexStep_whitespace (st st' : lstate) (c : ascii)
    (ts fin : list token) :
  isWhiteSpace c = true ->
  lexStep st c = Some (st', ts) ->
  lexFinish st' = Some fin ->
  lexFinish st = Some (ts ++ fin)%list.
Proof.
  intros Hc Hstep Hfin. apply whitespace_cases in Hc. simpl in Hc.
  destruct st as [|acc m|acc|acc].
  - repeat (destruct Hc as [<-|Hc]; [vm_compute in Hstep;
      try discriminate; injection Hstep as <- <-; exact Hfin|]).
    destruct Hc.
  - destruct m as [| |seen v];
      repeat (destruct Hc as [<-|Hc]; [cbn in Hstep;
        try discriminate; try (injection Hstep as <- <-; discriminate)|]);
      try destruct Hc.
    all: destruct (seen =? 3)%nat; discriminate.
  - unfold lexStep in Hstep. simpl.
    repeat (destruct Hc as [<-|Hc]; [
      cbn in Hstep; destruct (numberToken acc) as [t|];
      try discriminate; injection Hstep as <- <-;
      injection Hfin as <-; reflexivity|]).
    destruct Hc.
  - unfold lexStep in Hstep. simpl.
    repeat (destruct Hc as [<-|Hc]; [
      cbn in Hstep; destruct (wordToken acc) as [t|];
      try discriminate; injection Hstep as <- <-;
      injection Hfin as <-; reflexivity|]).
    destruct Hc.
Qed.

Lemma lex_snoc_whitespace (s : string) (c : ascii) (ts : list token) :
  isWhiteSpace c = true ->
  lex (s ++ String c "") = Some ts -> lex s = Some ts.
Proof.
  intros Hc. unfold lex. rewrite lexFrom_app.
  destruct (lexFrom LDefault [] s) as [[st out]|]; [|discriminate].
  simpl. destruct (lexStep st c) as [[st' ts']|] eqn:Hstep; [|discriminate].
  destruct (lexFinish st') as [fin|] eqn:Hfin; [|discriminate].
  rewrite (lexStep_whitespace st st' c ts' fin Hc Hstep Hfin).
  simpl. intros [= <-]. now rewrite app_assoc.
Qed.

Lemma lex_whitespace_suffix (suffix s : string) (ts : list token) :
  OCR.isBlankLine suffix = true ->
  lex (s ++ suffix) = Some ts -> lex s = Some ts.
Proof.
  revert s. induction suffix as [|c suffix IH]; intros s Hb H.
  - now rewrite append_nil_r in H.
  - unfold OCR.isBlankLine in Hb. simpl in Hb.
    apply andb_true_iff in Hb as [Hc Hb].
    apply (lex_snoc_whitespace s c ts Hc). apply IH; [exact Hb|].
    now rewrite append_assoc.
Qed.

Lemma lex_cons_whitespace (s : string) (c : ascii) (ts : list token) :
  isWhiteSpace c = true ->
  lex (String c s) = Some ts -> lex s = Some ts.
Proof.
  intros Hc. apply whitespace_cases in Hc. simpl in Hc. unfold lex.
  repeat (destruct Hc as [<-|Hc];
          [cbn; try discriminate; exact (fun H => H)|]).
  destruct Hc.
Qed.

Lemma lex_trimStart (s : string) (ts : list token) :
  lex s = Some ts -> lex (trimStart s) = Some ts.
Proof.
  induction s as [|c s IH]; simpl; intros H; [exact H|].
  destruct (isWhiteSpace c) eqn:Hc; [|exact H].
  apply IH. now apply (lex_cons_whitespace s c).
Qed.

Lemma lex_trimEnd (s : string) (ts : list token) :
  lex s = Some ts -> lex (trimEnd s) = Some ts.
Proof.
  destruct (trimEnd_suffix s) as (suffix & E & Hb). intros H.
  rewrite E in H. now apply (lex_whitespace_suffix suffix).
Qed.

(** Trimming a text that [JSON.parse] accepts does not change what it
    parses to. *)
Lemma parse_trim (text : string) (v : value) :
  parse text = Some v -> parse (trim text) = Some v.
Proof.
  unfold parse, trim. destruct (lex text) as [ts|] eqn:L; [|discriminate].
  now rewrite (lex_trimEnd _ ts (lex_trimStart _ ts L)).
Qed.

End JsonWhitespace.

(** ** The essay-grading handler *)

Section Grading.
Import JS Eff Essay.

Variable w : Essay.world.

(** A request that passes validation reaches the [try] block. *)
Lemma handler_valid (req : grading_request) (st : state) :
  valid req ->
  handler w req st
  = try_catch
      (grade w
         (match question req with Some q => q | None => EmptyString end)
         (match answer req with Some a => a | None => EmptyString end)
         (match bloom_level req with Some b => b | None => EmptyString end)
         (match max_score req with Some m => m | None => 10%Q end)
         (match rubric req with Some r => r | None => [] end))
      (fun error =>
         ret (mkResponse 500
                (FailureDetails "Essay grading failed." (message error))))
      st.
Proof.
  intros (q & a & Hq & Ha & Tq & Ta & Tt). unfold handler.
  rewrite Hq, Ha, Tq, Ta, Tt. reflexivity.
Qed.

(** The [try] block, by what the chat completion replied. *)
Lemma grade_reply (req : grading_request) (st : state) (content : string) :
  completion w = inr (Some content) ->
  grade w
    (match question req with Some q => q | None => EmptyString end)
    (match answer req with Some a => a | None => EmptyString end)
    (match bloom_level req with Some b => b | None => EmptyString end)
    (match max_score req with Some m => m | None => 10%Q end)
    (match rubric req with Some r => r | None => [] end) st
  = match JSON.parse (clean content) with
    | None =>
        (inr (mkResponse 500
                (FailureDetails "Failed to parse AI response."
                                (clean content))), sentState req st)
    | Some VNull =>
        (inl (TypeError "null (reading 'score')"), sentState req st)
    | Some gradingResult =>
        let prop := fun name =>
          match gradingResult with
          | VObj props => JSON.getProp props (widen name)
          | _ => None
          end in
        (inr (if negb (isNumber (prop "score"))
                 || negb (truthyOpt (prop "feedback"))
                 || negb (truthyOpt (prop "breakdown"))
              then mkResponse 500
                     (Failure "Invalid grading response structure from AI.")
              else mkResponse 200 (Graded gradingResult)),
         sentState req st)
    end.
Proof.
  intros Hc. unfold grade, chat, bind, emit, settle, ret. rewrite Hc.
  fold (promptOf req). fold (sent req). fold (sentState req st).
  destruct (JSON.parse (clean content)) as [v|]; [|reflexivity].
  destruct v; try reflexivity; simpl;
    match goal with |- context [if ?b then _ else _] => now destruct b end.
Qed.

(** Whatever the service replies, a valid request makes exactly one
    outbound call, carrying the prompt built from it. *)
Lemma handler_sends_prompt (req : grading_request) (st : state) :
  valid req -> snd (handler w req st) = sentState req st.
Proof.
  intros Hv. rewrite (handler_valid req st Hv). unfold try_catch.
  destruct (completion w) as [e|[content|]] eqn:Hc.
  - unfold grade, chat, bind, emit, settle. now rewrite Hc.
  - rewrite (grade_reply req st content Hc).
    destruct (JSON.parse (clean content)) as [v|]; [|reflexivity].
    destruct v; reflexivity.
  - unfold grade, chat, bind, emit, settle. now rewrite Hc.
Qed.

(** C6.  The prompt sent for a valid request carries
    [maxPerCriterion = max_score / k] when the rubric has [k >= 1] keys
    and [max_score / 4] when it has none ([max_score] defaulting to 10
    and the rubric to the empty object). *)
Theorem prompt_maxPerCriterion (req : grading_request) (st : state)
    (k : nat) :
  valid req ->
  let rubric := match rubric req with Some r => r | None => [] end in
  let max_score := match max_score req with Some m => m | None => 10%Q end in
  List.length (Object_keys rubric) = k ->
  trace (snd (handler w req st)) = trace st ++ [sent req]
  /\ perCriterion (promptOf req) = maxPerCriterion max_score rubric
  /\ (1 <= k ->
      maxPerCriterion max_score rubric
      = (max_score / inject_Z (Z.of_nat k))%Q)
  /\ (k = 0 -> maxPerCriterion max_score rubric = (max_score / 4)%Q).
Proof.
  intros Hv rubric max_score Hk.
  split; [now rewrite (handler_sends_prompt req st Hv)|].
  split; [reflexivity|].
  unfold maxPerCriterion, numCriteria. rewrite Hk.
  split; [intros H1 | intros ->; reflexivity].
  destruct k; [lia | reflexivity].
Qed.

(** C7 (amended).  When the reply, once trimmed and stripped of its
    fences, is not valid JSON, the handler answers 500 with the error
    Failed to parse AI response, and [details] is that stripped text. *)
Theorem malformed_reply_rejected (req : grading_request) (st : state)
    (content : string) :
  valid req ->
  completion w = inr (Some content) ->
  JSON.parse (clean content) = None ->
  handler w req st
  = (inr (mkResponse 500
            (FailureDetails "Failed to parse AI response." (clean content))),
     sentState req st).
Proof.
  intros Hv Hc Hp. rewrite (handler_valid req st Hv). unfold try_catch.
  now rewrite (grade_reply req st content Hc), Hp.
Qed.

(** C5 (amended).  A grading result that the handler returns is the
    parsed reply itself: an object whose [score] is a number and whose
    [feedback] and [breakdown] are truthy.  Nothing else is checked. *)
Theorem graded_result_shape (req : grading_request) (st st' : state)
    (r : response) :
  handler w req st = (inr r, st') ->
  statusCode r = 200 ->
  exists content props q,
    completion w = inr (Some content)
    /\ JSON.parse (clean content) = Some (VObj props)
    /\ json r = Graded (VObj props)
    /\ JSON.getProp props (widen "score") = Some (VNum q)
    /\ truthyOpt (JSON.getProp props (widen "feedback")) = true
    /\ truthyOpt (JSON.getProp props (widen "breakdown")) = true.
Proof.
  unfold handler.
  destruct (question req) as [q|]; [|intros [= <- _]; discriminate].
  destruct (answer req) as [a|]; [|intros [= <- _]; discriminate].
  destruct (negb (truthyStr q) || negb (truthyStr a));
    [intros [= <- _]; discriminate|].
  destruct (negb (truthyStr (trim a))); [intros [= <- _]; discriminate|].
  unfold try_catch, grade, chat, bind, emit, settle, ret.
  destruct (completion w) as [e|[content|]];
    try (intros [= <- _]; discriminate).
  destruct (JSON.parse (clean content)) as [v|] eqn:P;
    [|intros [= <- _]; discriminate].
  destruct v as [|b|n|s|items|props]; simpl;
    try (intros [= <- _]; discriminate).
  destruct (JSON.getProp props (widen "score")) as [[| |n| | |]|] eqn:Hs;
    simpl; try (intros [= <- _]; discriminate).
  destruct (truthyOpt (JSON.getProp props (widen "feedback"))) eqn:Hf;
    simpl; [|intros [= <- _]; discriminate].
  destruct (truthyOpt (JSON.getProp props (widen "breakdown"))) eqn:Hb;
    simpl; [|intros [= <- _]; discriminate].
  intros [= <- _] _. exists content, props, n. repeat split; assumption.
Qed.

(** C8 (amended).  For a JSON payload that holds no run of three
    backticks, put in a code fence (tagged json in any letter case, or
    untagged), stripping the fences and parsing gives what parsing the
    payload itself gives. *)
Theorem fenced_payload_parses (tag payload : string) (v : value) :
  fenceTag tag = true ->
  fenceFree payload = true ->
  JSON.parse payload = Some v ->
  JSON.parse (clean (fenced tag payload)) = JSON.parse payload.
Proof.
  intros Ht Hf Hp. rewrite (clean_fenced tag payload Ht Hf), Hp.
  now apply parse_trim.
Qed.

End Grading.

(** C5, as the specification words it, fails: a reply with score 999 for
    a request with [max_score] 10, and a breakdown [max] of 7 where
    [max_score / 1] is 10, is returned with status 200. *)
Lemma graded_score_unchecked :
  fst (Essay.handler (EssaySamples.replies EssaySamples.overScore)
         EssaySamples.arithmetic Eff.initial)
  = inr (Essay.mkResponse 200 (Essay.Graded EssaySamples.overScoreValue))
  /\ Essay.max_score EssaySamples.arithmetic = Some 10%Q
  /\ ~ (999 <= 10)%Q
  /\ Essay.maxPerCriterion 10 [("accuracy", "correctness")] = 10%Q
  /\ ~ (7 == 10)%Q.
Proof.
  split; [vm_compute; reflexivity|]. split; [reflexivity|].
  split; [intros H; vm_compute in H; now apply H|].
  split; [reflexivity|]. intros H. vm_compute in H. discriminate.
Qed.

(** C7, as the specification words it, fails: for a fenced reply that is
    not JSON, [details] is the text without its fences, not the reply as
    the service sent it. *)
Lemma malformed_details_not_raw :
  JSON.parse (Essay.clean EssaySamples.fencedProse) = None
  /\ fst (Essay.handler (EssaySamples.replies EssaySamples.fencedProse)
            EssaySamples.arithmetic Eff.initial)
     = inr (Essay.mkResponse 500
              (Essay.FailureDetails "Failed to parse AI response." "oops"))
  /\ "oops" <> EssaySamples.fencedProse.
Proof.
  split; [vm_compute; reflexivity|]. split; [vm_compute; reflexivity|].
  discriminate.
Qed.

(** C8, as the specification words it, fails: the JSON string of three
    backticks parses to that string, but inside a fence the stripping
    empties it. *)
Lemma fenced_backtick_payload_differs :
  JSON.parse EssaySamples.backtickPayload
  = Some (JS.VStr (JS.widen Essay.backticks))
  /\ JSON.parse (Essay.clean (Essay.fenced "json"
                                EssaySamples.backtickPayload))
     = Some (JS.VStr [])
  /\ JSON.parse (Essay.clean (Essay.fenced "json"
                                EssaySamples.backtickPayload))
     <> JSON.parse EssaySamples.backtickPayload.
Proof.
  split; [vm_compute; reflexivity|]. split; [vm_compute; reflexivity|].
  vm_compute. discriminate.
Qed.

Lemma arithmetic_valid : Essay.valid EssaySamples.arithmetic.
Proof. exists "What is 2+2?", "4". repeat split. Qed.

Lemma prompt_maxPerCriterion_witness :
  Eff.trace (snd (Essay.handler (EssaySamples.replies EssaySamples.fullMarks)
                    EssaySamples.arithmetic Eff.initial))
  = [Essay.sent EssaySamples.arithmetic]
  /\ Eff.perCriterion (Essay.promptOf EssaySamples.arithmetic)
     = Essay.maxPerCriterion 10 [("accuracy", "correctness")]
  /\ (1 <= 1 ->
      Essay.maxPerCriterion 10 [("accuracy", "correctness")]
      = (10 / inject_Z (Z.of_nat 1))%Q)
  /\ (1 = 0 ->
      Essay.maxPerCriterion 10 [("accuracy", "correctness")] = (10 / 4)%Q).
Proof.
  exact (prompt_maxPerCriterion (EssaySamples.replies EssaySamples.fullMarks)
           EssaySamples.arithmetic Eff.initial 1 arithmetic_valid eq_refl).
Defined.

Lemma malformed_reply_rejected_witness :
  Essay.handler (EssaySamples.replies EssaySamples.fencedProse)
    EssaySamples.arithmetic Eff.initial
  = (inr (Essay.mkResponse 500
            (Essay.FailureDetails "Failed to parse AI response."
               (Essay.clean EssaySamples.fencedProse))),
     Essay.sentState EssaySamples.arithmetic Eff.initial).
Proof.
  apply (malformed_reply_rejected
           (EssaySamples.replies EssaySamples.fencedProse)
           EssaySamples.arithmetic Eff.initial EssaySamples.fencedProse).
  - exact arithmetic_valid.
  - reflexivity.
  - vm_compute. reflexivity.
Defined.

Lemma graded_result_shape_witness :
  exists content props q,
    Essay.completion (EssaySamples.replies EssaySamples.fullMarks)
    = inr (Some content)
    /\ JSON.parse (Essay.clean content) = Some (JS.VObj props)
    /\ Essay.json (Essay.mkResponse 200
                     (Essay.Graded EssaySamples.fullMarksValue))
       = Essay.Graded (JS.VObj props)
    /\ JSON.getProp props (JS.widen "score") = Some (JS.VNum q)
    /\ Essay.truthyOpt (JSON.getProp props (JS.widen "feedback")) = true
    /\ Essay.truthyOpt (JSON.getProp props (JS.widen "breakdown")) = true.
Proof.
  apply (graded_result_shape (EssaySamples.replies EssaySamples.fullMarks)
           EssaySamples.arithmetic Eff.initial
           (snd (Essay.handler (EssaySamples.replies EssaySamples.fullMarks)
                   EssaySamples.arithmetic Eff.initial))).
  - vm_compute. reflexivity.
  - reflexivity.
Defined.

Lemma fenced_payload_parses_witness :
  JSON.parse (Essay.clean (Essay.fenced "JSON" EssaySamples.fullMarks))
  = JSON.parse EssaySamples.fullMarks.
Proof.
  apply (fenced_payload_parses "JSON" EssaySamples.fullMarks
           EssaySamples.fullMarksValue);
    vm_compute; reflexivity.
Defined.

(* ================================================================== *)
(** * Part III: further properties of the two routes                   *)
(* ================================================================== *)

(** ** The OCR client, beyond the three terminal cases *)

Section ClientEdges.
Import JS Eff OCR.

Variable w : world.

(** Whatever the replies, [n] rounds leave a trace of [k <= n] full
    rounds. *)
Lemma pollLoop_rounds (loc key : string) (n : nat) (st : state) :
  exists k, k <= n
    /\ snd (pollLoop w loc key n st)
       = mkState (gets st + k) (trace st ++ pollTrace loc key k).
Proof.
  revert st. induction n as [|n IH]; intros st.
  - exists 0. split; [lia|]. simpl. unfold throw. simpl.
    rewrite Nat.add_0_r, app_nil_r. now destruct st.
  - assert (Hone : mkState (S (gets st))
                     (trace st ++ [SetTimeout 1000; AxiosGet loc key])
                   = mkState (gets st + 1)
                       (trace st ++ pollTrace loc key 1)).
    { simpl. f_equal. lia. }
    simpl. unfold bind, sleep, emit, axios_get. simpl.
    rewrite <- app_assoc. simpl.
    destruct (get_reply w (gets st)) as [e|d]; simpl.
    { exists 1. split; [lia | exact Hone]. }
    destruct (String.eqb (status d) "succeeded").
    { exists 1. split; [lia|]. destruct (analyzeResult d); exact Hone. }
    destruct (String.eqb (status d) "failed").
    { exists 1. split; [lia | exact Hone]. }
    destruct (IH (mkState (S (gets st))
                   (trace st ++ [SetTimeout 1000; AxiosGet loc key])))
      as (k & Hk & E).
    exists (S k). split; [lia|]. rewrite E. simpl.
    rewrite <- app_assoc. simpl. f_equal. lia.
Qed.

(** X3.  When the submission is accepted but the reply names no job
    location (the header is missing or empty), the client throws Azure did
    not return operation-location after its one POST: it neither waits
    nor polls. *)
Theorem missing_location_stops_client (buf : list Byte.byte)
    (mime : string) (st : state) (header : option string) :
  post_reply w = inr header ->
  header = None \/ header = Some EmptyString ->
  processImageWithOCR w buf mime st
  = (inl (Error "Azure did not return operation-location"),
     mkState (gets st)
       (trace st ++ [AxiosPost (AZURE_OCR_ENDPOINT w ++ analyzePath) buf
                               mime (AZURE_OCR_KEY w)])).
Proof.
  intros Hp Hh. cbv [processImageWithOCR axios_post bind emit settle].
  rewrite Hp. now destruct Hh as [-> | ->].
Qed.

(** X4.  A GET that is rejected ends the polling: after [n < 15] pending
    replies, the rejection of the next GET is what the client throws, and
    no further round is made. *)
Theorem rejected_poll_stops_client (buf : list Byte.byte)
    (mime loc : string) (n : nat) (e : error) :
  post_reply w = inr (Some loc) -> truthyStr loc = true ->
  (forall i, i < n -> pending (get_reply w i)) ->
  n < maxAttempts ->
  get_reply w n = inl e ->
  processImageWithOCR w buf mime initial
  = (inl e,
     mkState (S n)
       (AxiosPost (AZURE_OCR_ENDPOINT w ++ analyzePath) buf mime
                  (AZURE_OCR_KEY w)
        :: pollTrace loc (AZURE_OCR_KEY w) (S n))).
Proof.
  intros Hp Ht Hpend Hn He.
  rewrite (processImageWithOCR_submitted w buf mime loc Hp Ht).
  replace maxAttempts with (n + S (maxAttempts - S n)) by lia.
  rewrite pollLoop_skip by (simpl; exact Hpend).
  simpl. unfold bind, sleep, emit, axios_get. simpl.
  rewrite He. rewrite <- app_assoc. simpl.
  now rewrite <- pollTrace_snoc.
Qed.

(** From any state, a call of the client adds one POST and then [k <= 15]
    rounds of waiting and polling, all of one job location. *)
Lemma processImageWithOCR_trace (buf : list Byte.byte) (mime : string)
    (st : state) :
  exists k loc, k <= maxAttempts
    /\ trace (snd (processImageWithOCR w buf mime st))
       = trace st
         ++ AxiosPost (AZURE_OCR_ENDPOINT w ++ analyzePath) buf mime
                      (AZURE_OCR_KEY w)
            :: pollTrace loc (AZURE_OCR_KEY w) k.
Proof.
  cbv [processImageWithOCR axios_post bind emit settle].
  destruct (post_reply w) as [e|[loc|]];
    try (exists 0, EmptyString; split; [lia | reflexivity]).
  destruct (truthyStr loc);
    [|exists 0, EmptyString; split; [lia | reflexivity]].
  match goal with
  | |- context [pollLoop w loc ?key maxAttempts ?s] =>
      destruct (pollLoop_rounds loc key maxAttempts s) as (k & Hk & E)
  end.
  exists k, loc. split; [exact Hk|]. rewrite E. simpl.
  now rewrite <- app_assoc.
Qed.

End ClientEdges.

Lemma missing_location_stops_client_witness :
  OCR.processImageWithOCR MoreSamples.noLocation [] "image/png" Eff.initial
  = (inl (JS.Error "Azure did not return operation-location"),
     Eff.mkState 0
       [Eff.AxiosPost
          (OCR.AZURE_OCR_ENDPOINT MoreSamples.noLocation ++ OCR.analyzePath)
          [] "image/png" "secret"]).
Proof.
  exact (missing_location_stops_client MoreSamples.noLocation []
           "image/png" Eff.initial None eq_refl (or_introl eq_refl)).
Defined.

Lemma rejected_poll_stops_client_witness :
  OCR.processImageWithOCR MoreSamples.secondPollRefused [] "image/png"
    Eff.initial
  = (inl (JS.Error "Request failed with status code 429"),
     Eff.mkState 2
       (Eff.AxiosPost
          (OCR.AZURE_OCR_ENDPOINT MoreSamples.secondPollRefused
           ++ OCR.analyzePath) [] "image/png" "secret"
        :: OCR.pollTrace "https://ocr.example/job/2" "secret" 2)).
Proof.
  apply (rejected_poll_stops_client MoreSamples.secondPollRefused []
           "image/png" "https://ocr.example/job/2" 1).
  - reflexivity.
  - reflexivity.
  - intros i Hi. exists (OCR.mkPoll "running" None).
    destruct i as [|i]; [now split | lia].
  - unfold OCR.maxAttempts. lia.
  - reflexivity.
Defined.

(** ** The OCR handler, path by path *)

Section HandlerPaths.
Import JS Eff OCR.

Variable w : world.

Lemma truthy_not_blank (s : string) :
  truthyStr s && truthyStr (trim s) = negb (blank s).
Proof.
  unfold blank. destruct s as [|c r]; [reflexivity|].
  simpl truthyStr at 1. simpl negb at 2. simpl orb. simpl andb.
  now destruct (trim (String c r)).
Qed.

(** The try block of an accepted file that is not a PDF. *)
Lemma handler_image (file : uploaded_file) (st : state) :
  includes supportedExtensions (fileExt (originalname file)) = true ->
  String.eqb (fileExt (originalname file)) "pdf" = false ->
  handler w (Some file) st
  = match processImageWithOCR w (buffer file) (mimetype file) st with
    | (inl e, st') => (inr (extractionFailed e), st')
    | (inr t, st') =>
        (inr (if blank t then noTextInImage else mkResponse 200 (Text t)),
         st')
    end.
Proof.
  intros Hs Hp. rewrite (handler_supported w file st Hs).
  unfold extract, try_catch. rewrite Hp.
  unfold extractImage, bind, ret.
  destruct (processImageWithOCR w (buffer file) (mimetype file) st)
    as [[e|t] st']; [reflexivity|].
  now destruct (blank t).
Qed.

(** The try block of a PDF whose text layer was read. *)
Lemma handler_pdf (file : uploaded_file) (st : state) (d : pdf_data) :
  fileExt (originalname file) = "pdf" ->
  pdf w (buffer file) = inr d ->
  handler w (Some file) st
  = let answer := fun combined =>
      if blank combined then noTextInPdf
      else mkResponse 200 (Text (dedup combined)) in
    match processImageWithOCR w (buffer file) "application/pdf" st with
    | (inl e, st') => (inr (answer (textLayer d)), st')
    | (inr ocrText, st') =>
        (inr (answer (if blank ocrText then textLayer d
                      else (textLayer d ++ nl ++ nl ++ ocrText)%string)),
         st')
    end.
Proof.
  intros Hext Hpdf. unfold handler. rewrite Hext.
  replace (negb (includes supportedExtensions "pdf")) with false
    by reflexivity.
  unfold extract, try_catch.
  replace (String.eqb "pdf" "pdf") with true by reflexivity.
  unfold extractPdf, bind, settle, try_catch, ret. rewrite Hpdf.
  fold (textLayer d).
  destruct (processImageWithOCR w (buffer file) "application/pdf" st)
    as [[e|ocrText] st'].
  - now destruct (blank (textLayer d)).
  - rewrite truthy_not_blank. destruct (blank ocrText); cbn [negb].
    + now destruct (blank (textLayer d)).
    + now destruct (blank (textLayer d ++ nl ++ nl ++ ocrText)).
Qed.

(** X5.  For an accepted image, an error of the OCR client is fatal: the
    handler answers 500 with the error Text extraction failed, and the
    details are the upstream response data when there is a truthy one and
    the error message otherwise. *)
Theorem image_ocr_failure_is_fatal (file : uploaded_file) (st st' : state)
    (e : error) :
  includes supportedExtensions (fileExt (originalname file)) = true ->
  String.eqb (fileExt (originalname file)) "pdf" = false ->
  processImageWithOCR w (buffer file) (mimetype file) st = (inl e, st') ->
  handler w (Some file) st
  = (inr (mkResponse 500
            (FailureDetails "Text extraction failed"
               (match response_data e with
                | Some d => if truthy d then d else VStr (widen (message e))
                | None => VStr (widen (message e))
                end))), st').
Proof.
  intros Hs Hp Hocr. now rewrite (handler_image file st Hs Hp), Hocr.
Qed.

(** X6.  For an accepted image, the text the OCR client returns is sent
    back exactly as it is (no line is dropped, merged or reordered) unless
    it is blank, in which case the answer is 400 No text found in image. *)
Theorem image_text_returned_as_is (file : uploaded_file) (st st' : state)
    (t : string) :
  includes supportedExtensions (fileExt (originalname file)) = true ->
  String.eqb (fileExt (originalname file)) "pdf" = false ->
  processImageWithOCR w (buffer file) (mimetype file) st = (inr t, st') ->
  handler w (Some file) st
  = (inr (if isBlankLine t then noTextInImage
          else mkResponse 200 (Text t)), st').
Proof.
  intros Hs Hp Hocr.
  now rewrite (handler_image file st Hs Hp), Hocr, blank_spec.
Qed.

(** X7.  For a PDF whose OCR pass returns a text that is not blank, the
    answer is 200 and its text is the deduplication of the text layer,
    an empty line, and the OCR text, in that order. *)
Theorem pdf_merges_layer_and_ocr (file : uploaded_file) (st st' : state)
    (d : pdf_data) (ocrText : string) :
  fileExt (originalname file) = "pdf" ->
  pdf w (buffer file) = inr d ->
  processImageWithOCR w (buffer file) "application/pdf" st
  = (inr ocrText, st') ->
  isBlankLine ocrText = false ->
  handler w (Some file) st
  = (inr (mkResponse 200
            (Text (dedup (textLayer d ++ nl ++ nl ++ ocrText)))), st').
Proof.
  intros Hext Hpdf Hocr Hvis.
  rewrite (handler_pdf file st d Hext Hpdf), Hocr. cbv zeta.
  rewrite !blank_spec, Hvis, !isBlankLine_app, Hvis.
  now rewrite !andb_false_r.
Qed.

(** X8.  For a PDF whose OCR pass returns a blank text, the OCR text is
    left out: the answer is the deduplicated text layer, or 400 No text
    found in PDF when the text layer is blank too. *)
Theorem pdf_blank_ocr_ignored (file : uploaded_file) (st st' : state)
    (d : pdf_data) (ocrText : string) :
  fileExt (originalname file) = "pdf" ->
  pdf w (buffer file) = inr d ->
  processImageWithOCR w (buffer file) "application/pdf" st
  = (inr ocrText, st') ->
  isBlankLine ocrText = true ->
  handler w (Some file) st
  = (inr (if isBlankLine (textLayer d) then noTextInPdf
          else mkResponse 200 (Text (dedup (textLayer d)))), st').
Proof.
  intros Hext Hpdf Hocr Hb.
  rewrite (handler_pdf file st d Hext Hpdf), Hocr. cbv zeta.
  now rewrite !blank_spec, Hb.
Qed.

(** X9.  When pdf-parse rejects the bytes of a PDF, the handler answers
    500 Text extraction failed without contacting the OCR service. *)
Theorem unreadable_pdf_fails_locally (file : uploaded_file) (st : state)
    (e : error) :
  fileExt (originalname file) = "pdf" ->
  pdf w (buffer file) = inl e ->
  handler w (Some file) st = (inr (extractionFailed e), st).
Proof.
  intros Hext Hpdf. unfold handler. rewrite Hext.
  replace (negb (includes supportedExtensions "pdf")) with false
    by reflexivity.
  unfold extract, try_catch.
  replace (String.eqb "pdf" "pdf") with true by reflexivity.
  unfold extractPdf, bind, settle. now rewrite Hpdf.
Qed.

(** X1.  The handler never throws: for every world and every request it
    answers, with 200 and a text, with 400 and a bare error, or with 500
    and the error Text extraction failed. *)
Theorem ocr_handler_always_answers (file : option uploaded_file)
    (st : state) :
  exists r, fst (handler w file st) = inr r /\ wellFormed r.
Proof.
  destruct file as [file|]; [|now eexists].
  unfold handler. destruct (negb _) eqn:G; [now eexists|].
  apply negb_false_iff in G.
  destruct (String.eqb (fileExt (originalname file)) "pdf") eqn:P.
  - unfold extract, try_catch. rewrite P.
    unfold extractPdf, bind, settle, try_catch, ret.
    destruct (pdf w (buffer file)) as [e|d]; [now eexists|].
    destruct (processImageWithOCR w (buffer file) "application/pdf" st)
      as [[e|t] st'].
    + destruct (blank _); now eexists.
    + destruct (truthyStr t && truthyStr (trim t));
        destruct (blank _); now eexists.
  - rewrite <- (handler_supported w file st G).
    rewrite (handler_image file st G P).
    destruct (processImageWithOCR w (buffer file) (mimetype file) st)
      as [[e|t] st']; [now eexists|].
    destruct (blank t); now eexists.
Qed.

(** X2.  A request makes at most one submission, of the file's bytes
    (under application/pdf for a PDF and under the upload's own MIME type
    otherwise), followed by at most 15 rounds, each a one-second wait and
    then a GET of one and the same job location.  Nothing else is sent. *)
Theorem ocr_handler_trace (file : uploaded_file) :
  let tr := trace (snd (handler w (Some file) initial)) in
  tr = []
  \/ exists k loc, k <= 15
       /\ tr = submission w file :: pollTrace loc (AZURE_OCR_KEY w) k.
Proof.
  cbv zeta. unfold handler. destruct (negb _); [now left|].
  unfold extract, try_catch, submission, contentTypeOf.
  destruct (String.eqb (fileExt (originalname file)) "pdf").
  - unfold extractPdf, bind, settle, try_catch, ret.
    destruct (pdf w (buffer file)) as [e|d]; [now left|].
    destruct (processImageWithOCR_trace w (buffer file) "application/pdf"
                initial) as (k & loc & Hk & E).
    cbn [trace initial app] in E. right. exists k, loc. split; [exact Hk|]. rewrite <- E.
    destruct (processImageWithOCR w (buffer file) "application/pdf" initial)
      as [[e|t] st'].
    + now destruct (blank _).
    + destruct (truthyStr t && truthyStr (trim t));
        now destruct (blank _).
  - destruct (processImageWithOCR_trace w (buffer file) (mimetype file)
                initial) as (k & loc & Hk & E).
    cbn [trace initial app] in E. right. exists k, loc. split; [exact Hk|]. rewrite <- E.
    unfold extractImage, bind, ret.
    destruct (processImageWithOCR w (buffer file) (mimetype file) initial)
      as [[e|t] st']; [reflexivity|].
    now destruct (blank t).
Qed.

(** X12.  For a name with a dot, the extension is the lowercased text
    after the last dot, so the gate looks at nothing else: the file is
    rejected exactly when that text, lowercased, is none of jpg, jpeg,
    png, pdf, whatever precedes the last dot and whatever the letter
    case. *)
Theorem gate_decides_on_suffix (file : uploaded_file) (st : state)
    (pre suf : string) :
  originalname file = (pre ++ String dot suf)%string ->
  occurs dot suf = false ->
  fileExt (originalname file) = toLowerCase suf
  /\ (handler w (Some file) st = (inr unsupported, st)
      <-> includes supportedExtensions (toLowerCase suf) = false).
Proof.
  intros Hname Hsuf.
  assert (E : fileExt (originalname file) = toLowerCase suf).
  { rewrite Hname. now apply fileExt_after_last_dot. }
  split; [exact E|]. split.
  - intros H.
    destruct (includes supportedExtensions (toLowerCase suf)) eqn:I;
      [|reflexivity].
    rewrite <- E in I. rewrite (handler_supported w file st I) in H.
    exfalso.
    apply (extract_not_unsupported w file (fileExt (originalname file)) st).
    now rewrite H.
  - intros I. unfold handler. now rewrite E, I.
Qed.

End HandlerPaths.

(** ** Deduplication as an operation on texts *)

Section DedupAlgebra.
Import JS OCR.

(** [s.split('\n').join('\n')] is [s]. *)
Lemma join_split (t : string) : join nl (split LF t) = t.
Proof.
  unfold join, nl. induction t as [|c r IH]; [reflexivity|].
  simpl split. destruct (split_cons LF r) as (h & rest & E).
  rewrite E in *. destruct (Ascii.eqb c LF) eqn:Hc.
  - apply Ascii.eqb_eq in Hc. subst c.
    change (String.concat (String LF "") ("" :: h :: rest))
      with (String LF (String.concat (String LF "") (h :: rest))).
    now rewrite IH.
  - destruct rest as [|h' rest].
    + simpl in *. now rewrite IH.
    + change (String.concat (String LF "") (String c h :: h' :: rest))
        with (String c (String.concat (String LF "") (h :: h' :: rest))).
      now rewrite IH.
Qed.

Lemma filter_all {A} (f : A -> bool) (l : list A) :
  Forall (fun x => f x = true) l -> filter f l = l.
Proof.
  induction 1 as [|x l Hx _ IH]; simpl; [reflexivity|].
  now rewrite Hx, IH.
Qed.

Lemma firstOccurrences_distinct (ls : list string) :
  NoDup ls -> firstOccurrences ls = ls.
Proof.
  induction 1 as [|l ls Hin _ IH]; simpl; [reflexivity|].
  rewrite IH. f_equal. apply filter_all. rewrite Forall_forall.
  intros x Hx. apply negb_true_iff, String.eqb_neq. congruence.
Qed.

(** Lines that are pairwise distinct and not blank all survive, in
    place. *)
Lemma keep_distinct_visible (ls : list string) :
  NoDup ls -> Forall (fun l => isBlankLine l = false) ls ->
  Set_from (filter (fun l => truthyStr (trim l)) ls) = ls.
Proof.
  intros Hnd Hvis. rewrite Set_from_firstOccurrences.
  rewrite filter_all.
  - now apply firstOccurrences_distinct.
  - rewrite Forall_forall in *. intros l Hl.
    now rewrite truthy_trim, (Hvis l Hl).
Qed.

Lemma dedup_blank (t : string) : blank t = true -> dedup t = EmptyString.
Proof.
  rewrite blank_spec, isBlankLine_split. intros H.
  unfold dedup. rewrite dedupLines_spec.
  replace (filter (fun l => negb (isBlankLine l)) (split LF t))
    with (@nil string); [reflexivity|].
  rewrite forallb_forall in H.
  induction (split LF t) as [|l ls IH]; [reflexivity|].
  simpl. rewrite (H l (or_introl eq_refl)). simpl.
  apply IH. intros x Hx. apply H. now right.
Qed.

Lemma dedupLines_distinct (t : string) : NoDup (dedupLines t).
Proof. rewrite dedupLines_spec. apply firstOccurrences_NoDup. Qed.

(** X11.  A text whose lines are pairwise distinct and none of which is
    blank passes through the deduplication unchanged. *)
Theorem dedup_keeps_clean_text (t : string) :
  NoDup (split LF t) ->
  Forall (fun l => isBlankLine l = false) (split LF t) ->
  dedup t = t.
Proof.
  intros Hnd Hvis. unfold dedup, dedupLines.
  rewrite (keep_distinct_visible _ Hnd Hvis). apply join_split.
Qed.

(** X10.  Deduplicating twice is deduplicating once. *)
Theorem dedup_idempotent (t : string) : dedup (dedup t) = dedup t.
Proof.
  destruct (blank t) eqn:B.
  - now rewrite (dedup_blank t B).
  - assert (E : split LF (dedup t) = dedupLines t).
    { unfold dedup, nl. apply split_join.
      - now apply dedupLines_nonempty.
      - pose proof (split_pieces LF t) as Hp.
        rewrite Forall_forall in *. intros l Hl. apply Hp.
        rewrite dedupLines_spec in Hl.
        now apply firstOccurrences_In, filter_In in Hl as [Hl _]. }
    unfold dedup at 1. unfold dedupLines at 1. rewrite E.
    now rewrite (keep_distinct_visible _ (dedupLines_distinct t)
                   (dedupLines_visible t)).
Qed.

End DedupAlgebra.

(** ** The essay-grading handler, outcome by outcome *)

Section GradingOutcomes.
Import JS Eff Essay.

Variable w : Essay.world.





(** X14.  When the chat-completion call is rejected, the handler answers
    500 Essay grading failed with the error's message as details, after
    that one call and without a retry. *)
Theorem chat_rejection_reported (req : grading_request) (st : state)
    (e : error) :
  valid req ->
  completion w = inl e ->
  handler w req st
  = (inr (mkResponse 500
            (FailureDetails "Essay grading failed." (message e))),
     sentState req st).
Proof.
  intros Hv Hc. rewrite (handler_valid w req st Hv).
  unfold try_catch, grade, chat, bind, emit, settle. now rewrite Hc.
Qed.

(** The answer to a valid request whose reply parses to something other
    than [null]. *)
Lemma handler_parsed (req : grading_request) (st : state)
    (content : string) (v : value) :
  valid req ->
  completion w = inr (Some content) ->
  JSON.parse (clean content) = Some v ->
  v <> VNull ->
  handler w req st
  = (inr (if shapeOk v then mkResponse 200 (Graded v)
          else invalidStructure), sentState req st).
Proof.
  intros Hv Hc Hp Hnull. rewrite (handler_valid w req st Hv).
  unfold try_catch. rewrite (grade_reply w req st content Hc), Hp.
  destruct v as [|b|n|s|items|props]; try reflexivity; [congruence|].
  cbv zeta. unfold shapeOk.
  destruct (isNumber _), (truthyOpt (JSON.getProp props (widen "feedback"))),
    (truthyOpt _); reflexivity.
Qed.

(** X15.  A reply that, once cleaned, parses to an object with a numeric
    score and truthy feedback and breakdown is sent back with status 200
    exactly as parsed: nothing is added, dropped or renamed. *)
Theorem well_formed_reply_returned (req : grading_request) (st : state)
    (content : string) (props : list (wstring * value)) :
  valid req ->
  completion w = inr (Some content) ->
  JSON.parse (clean content) = Some (VObj props) ->
  shapeOk (VObj props) = true ->
  handler w req st
  = (inr (mkResponse 200 (Graded (VObj props))), sentState req st).
Proof.
  intros Hv Hc Hp Hs.
  rewrite (handler_parsed req st content (VObj props) Hv Hc Hp); [|discriminate].
  now rewrite Hs.
Qed.

(** X16.  A reply that parses to a value other than [null] and fails the
    structure check (it is not an object, or its score is not a number,
    or its feedback or breakdown is missing or falsy) is answered 500
    Invalid grading response structure from AI, with no details. *)
Theorem misshapen_reply_rejected (req : grading_request) (st : state)
    (content : string) (v : value) :
  valid req ->
  completion w = inr (Some content) ->
  JSON.parse (clean content) = Some v ->
  v <> VNull ->
  shapeOk v = false ->
  handler w req st = (inr invalidStructure, sentState req st).
Proof.
  intros Hv Hc Hp Hnull Hs.
  now rewrite (handler_parsed req st content v Hv Hc Hp Hnull), Hs.
Qed.

(** X17.  A reply that parses to [null] does not reach the structure
    check's answer: reading its score throws, and the handler answers 500
    Essay grading failed. *)
Theorem null_reply_fails_grading (req : grading_request) (st : state)
    (content : string) :
  valid req ->
  completion w = inr (Some content) ->
  JSON.parse (clean content) = Some VNull ->
  exists details,
    handler w req st
    = (inr (mkResponse 500 (FailureDetails "Essay grading failed." details)),
       sentState req st).
Proof.
  intros Hv Hc Hp. rewrite (handler_valid w req st Hv).
  unfold try_catch. rewrite (grade_reply w req st content Hc), Hp.
  now eexists.
Qed.



End GradingOutcomes.

(** ** Cleaning a reply, as an operation on texts *)

Section CleaningAlgebra.
Import JS Essay.
Local Open Scope string_scope.

Lemma matchFence_pattern : fencePattern matchFence.
Proof.
  intros s. unfold matchFence. split; intros H; rewrite H;
    [reflexivity | now exists 2].
Qed.

Lemma matchFenceJson_pattern : fencePattern matchFenceJson.
Proof.
  intros s. unfold matchFenceJson. split; intros H; rewrite H;
    [reflexivity|].
  destruct s as [|? [|? [|? [|j [|s' [|o [|n ?]]]]]]];
    try (now exists 2).
  destruct (sameLetter j 106 && sameLetter s' 115 && sameLetter o 111
            && sameLetter n 110); [now exists 6 | now exists 2].
Qed.

Lemma startsFence_other_first (c : ascii) (r : string) :
  isBacktick c = false -> startsFence (String c r) = false.
Proof. intros H. destruct r as [|? [|? ?]]; simpl; now rewrite ?H. Qed.

Lemma startsFence_other_second (c c2 : ascii) (r : string) :
  isBacktick c2 = false -> startsFence (String c (String c2 r)) = false.
Proof.
  intros H. destruct r as [|? ?]; simpl; [reflexivity|].
  now rewrite H, andb_false_r.
Qed.

(** A character that is copied is never the first of three backticks in
    the output. *)
Lemma copied_head (matchAt : string -> option nat) (c : ascii) (r : string) :
  fencePattern matchAt ->
  startsFence (String c r) = false ->
  startsFence (String c (removeMatches matchAt 0 r)) = false.
Proof.
  intros Hm Hs. destruct (isBacktick c) eqn:Bc;
    [|now apply startsFence_other_first].
  destruct r as [|c2 r2]; [reflexivity|].
  destruct (isBacktick c2) eqn:B2.
  - destruct r2 as [|c3 r3].
    + cbn [removeMatches].
      now rewrite (proj1 (Hm (String c2 "")) eq_refl).
    + assert (B3 : isBacktick c3 = false).
      { simpl in Hs. now rewrite Bc, B2 in Hs. }
      cbn [removeMatches].
      rewrite (proj1 (Hm _) (startsFence_other_second c2 c3 r3 B3)).
      rewrite (proj1 (Hm _) (startsFence_other_first c3 r3 B3)).
      simpl. now rewrite B3, andb_false_r.
  - cbn [removeMatches].
    rewrite (proj1 (Hm _) (startsFence_other_first c2 r2 B2)).
    now apply startsFence_other_second.
Qed.

(** What a global [replace] of a fence pattern leaves holds no three
    backticks in a row, however many characters of a match were still to
    drop at the start. *)
Lemma removeMatches_fenceFree_out (matchAt : string -> option nat)
    (s : string) (skip : nat) :
  fencePattern matchAt ->
  fenceFree (removeMatches matchAt skip s) = true.
Proof.
  intros Hm. revert skip. induction s as [|c r IH]; intros skip.
  - reflexivity.
  - cbn [removeMatches]. destruct skip as [|k]; [|apply IH].
    destruct (startsFence (String c r)) eqn:S.
    + destruct (proj2 (Hm _) S) as (k & ->). apply IH.
    + rewrite (proj1 (Hm _) S). cbn [fenceFree].
      now rewrite (copied_head matchAt c r Hm S), IH.
Qed.

(** On a text without three backticks in a row a [replace] changes
    nothing. *)
Lemma removeMatches_nothing (matchAt : string -> option nat) (t : string) :
  fencePattern matchAt -> fenceFree t = true ->
  removeMatches matchAt 0 t = t.
Proof.
  intros Hm. induction t as [|c r IH]; intros Hf; [reflexivity|].
  cbn [fenceFree] in Hf. apply andb_true_iff in Hf as [Hs Hf].
  apply negb_true_iff in Hs.
  cbn [removeMatches]. now rewrite (proj1 (Hm _) Hs), (IH Hf).
Qed.

Lemma startsFence_prefix (a b : string) :
  startsFence a = true -> startsFence (a ++ b) = true.
Proof. destruct a as [|? [|? [|? ?]]]; simpl; congruence. Qed.

Lemma fenceFree_prefix (a b : string) :
  fenceFree (a ++ b) = true -> fenceFree a = true.
Proof.
  induction a as [|c a IH]; intros H; [reflexivity|].
  change (String c a ++ b) with (String c (a ++ b)) in H.
  cbn [fenceFree] in *. apply andb_true_iff in H as [Hs Hf].
  rewrite (IH Hf), andb_true_r.
  destruct (startsFence (String c a)) eqn:S; [|reflexivity].
  apply (startsFence_prefix _ b) in S.
  change (String c a ++ b) with (String c (a ++ b)) in S.
  now rewrite S in Hs.
Qed.

Lemma fenceFree_trim (s : string) :
  fenceFree s = true -> fenceFree (trim s) = true.
Proof.
  intros H. unfold trim.
  assert (Hstart : fenceFree (trimStart s) = true).
  { induction s as [|c r IH]; [reflexivity|]. simpl trimStart.
    destruct (isWhiteSpace c); [|exact H].
    cbn [fenceFree] in H. apply andb_true_iff in H as [_ H]. now apply IH. }
  destruct (trimEnd_suffix (trimStart s)) as (suffix & E & _).
  rewrite E in Hstart. now apply fenceFree_prefix in Hstart.
Qed.

(** *** [trim] twice *)

Lemma trimEnd_twice (s : string) : trimEnd (trimEnd s) = trimEnd s.
Proof.
  induction s as [|c r IH]; [reflexivity|]. simpl.
  destruct (trimEnd r) as [|y t] eqn:E.
  - destruct (isWhiteSpace c) eqn:Hc; [reflexivity|]. simpl. now rewrite Hc.
  - change (trimEnd (String c (String y t)))
      with (match trimEnd (String y t) with
            | EmptyString => if isWhiteSpace c then EmptyString
                             else String c EmptyString
            | r' => String c r'
            end).
    now rewrite IH.
Qed.

Lemma trimStart_trimEnd (s : string) :
  trimStart (trimEnd (trimStart s)) = trimEnd (trimStart s).
Proof.
  induction s as [|c r IH]; [reflexivity|]. simpl trimStart at 2 3.
  destruct (isWhiteSpace c) eqn:Hc; [exact IH|].
  simpl trimEnd. destruct (trimEnd r); rewrite ?Hc; simpl; now rewrite Hc.
Qed.

Lemma trim_twice (s : string) : trim (trim s) = trim s.
Proof. unfold trim. now rewrite trimStart_trimEnd, trimEnd_twice. Qed.

(** X23.  The second [replace] never finds anything: what the first one
    returns is already free of three backticks in a row. *)
Theorem second_replace_is_idle (s : string) :
  removeMatches matchFence 0 (removeMatches matchFenceJson 0 s)
  = removeMatches matchFenceJson 0 s.
Proof.
  apply removeMatches_nothing; [exact matchFence_pattern|].
  apply removeMatches_fenceFree_out. exact matchFenceJson_pattern.
Qed.

(** X20.  The text handed to [JSON.parse] never holds three backticks in
    a row, whatever the reply was. *)
Theorem clean_is_fence_free (content : string) :
  fenceFree (clean content) = true.
Proof.
  unfold clean. apply fenceFree_trim, removeMatches_fenceFree_out.
  exact matchFence_pattern.
Qed.

Lemma clean_plain (content : string) :
  fenceFree content = true -> clean content = trim content.
Proof.
  intros H. unfold clean. apply fenceFree_trim in H.
  rewrite (removeMatches_nothing _ _ matchFenceJson_pattern H).
  rewrite (removeMatches_nothing _ _ matchFence_pattern H).
  apply trim_twice.
Qed.

(** X22.  A reply without three backticks in a row is only trimmed. *)
Theorem unfenced_reply_only_trimmed (content : string) :
  fenceFree content = true -> clean content = trim content.
Proof.
  intros H. unfold clean.
  assert (Ht : fenceFree (trim content) = true) by now apply fenceFree_trim.
  rewrite (removeMatches_nothing _ _ matchFenceJson_pattern Ht).
  rewrite (removeMatches_nothing _ _ matchFence_pattern Ht).
  apply trim_twice.
Qed.

(** X21.  Cleaning twice is cleaning once. *)
Theorem clean_idempotent (content : string) :
  clean (clean content) = clean content.
Proof.
  rewrite (clean_plain (clean content)).
  - unfold clean at 2. apply trim_twice.
  - unfold clean. apply fenceFree_trim, removeMatches_fenceFree_out.
    exact matchFence_pattern.
Qed.

End CleaningAlgebra.

(** ** Merging the text layer with the OCR text *)

Section Merge.
Import JS OCR.

Lemma split_app_newline (a b : string) :
  split LF (a ++ String LF b) = split LF a ++ split LF b.
Proof.
  induction a as [|c r IH].
  - reflexivity.
  - change (String c r ++ String LF b)%string
      with (String c (r ++ String LF b)).
    cbn [split]. rewrite IH. destruct (Ascii.eqb c LF); [reflexivity|].
    destruct (split_cons LF r) as (h & t & E). now rewrite E.
Qed.

(** A [Set] filled from two arrays in a row: the members of the first,
    then those of the second that the first did not have. *)
Lemma Set_from_app (x y : list string) :
  Set_from (x ++ y)
  = Set_from x ++ filter (fun l => negb (includes (Set_from x) l))
                         (Set_from y).
Proof.
  unfold Set_from at 1. rewrite fold_left_app. fold (Set_from x).
  now rewrite Set_fold, (Set_from_firstOccurrences y).
Qed.

(** The lines kept from a text layer followed by an empty line and an OCR
    text. *)
Lemma dedupLines_app (layer ocrText : string) :
  dedupLines (layer ++ nl ++ nl ++ ocrText)
  = Set_from (filter (fun l => truthyStr (trim l)) (split LF layer)
              ++ filter (fun l => truthyStr (trim l)) (split LF ocrText)).
Proof.
  unfold dedupLines, nl. f_equal.
  change (layer ++ String LF "" ++ String LF "" ++ ocrText)%string
    with (layer ++ String LF (String LF ocrText))%string.
  rewrite split_app_newline, filter_app. reflexivity.
Qed.

(** X24.  In a merged PDF text the lines of the text layer come first, in
    their deduplicated order, followed by the deduplicated OCR lines that
    the text layer did not already have. *)
Theorem merged_text_layer_first (layer ocrText : string) :
  dedup (layer ++ nl ++ nl ++ ocrText)
  = join nl
      (dedupLines layer
       ++ filter (fun l => negb (includes (dedupLines layer) l))
                 (dedupLines ocrText)).
Proof.
  unfold dedup. now rewrite dedupLines_app, Set_from_app.
Qed.

(** X25.  When every non-blank line of the OCR text already stands in the
    text layer, merging adds nothing: the result is the deduplicated text
    layer. *)
Theorem repeated_ocr_text_absorbed (layer ocrText : string) :
  (forall l, In l (split LF ocrText) -> isBlankLine l = false ->
             In l (split LF layer)) ->
  dedup (layer ++ nl ++ nl ++ ocrText) = dedup layer.
Proof.
  intros H. unfold dedup. rewrite dedupLines_app, Set_from_app.
  fold (dedupLines layer). fold (dedupLines ocrText).
  replace (filter _ (dedupLines ocrText)) with (@nil string);
    [now rewrite app_nil_r|].
  assert (Hall : forall l, In l (dedupLines ocrText) ->
                   negb (includes (dedupLines layer) l) = false).
  { intros l Hl. apply negb_false_iff, includes_In.
    rewrite dedupLines_spec in *.
    apply firstOccurrences_In, filter_In in Hl as [Hin Hv].
    apply negb_true_iff in Hv.
    apply firstOccurrences_In, filter_In. split; [now apply H|].
    now rewrite Hv. }
  induction (dedupLines ocrText) as [|l ls IH]; [reflexivity|].
  simpl. rewrite (Hall l (or_introl eq_refl)). apply IH.
  intros x Hx. apply Hall. now right.
Qed.

End Merge.

(** ** Instances *)

Lemma image_ocr_failure_is_fatal_witness :
  OCR.handler (Samples.ocrDown "layer") (Some Samples.photo) Eff.initial
  = (inr (OCR.mkResponse 500
            (OCR.FailureDetails "Text extraction failed"
               (JS.VStr (JS.widen "Request failed with status code 401")))),
     snd (OCR.processImageWithOCR (Samples.ocrDown "layer") [] "image/png"
            Eff.initial)).
Proof.
  apply (image_ocr_failure_is_fatal (Samples.ocrDown "layer") Samples.photo
           Eff.initial _ (JS.Error "Request failed with status code 401"));
    vm_compute; reflexivity.
Defined.

Lemma image_text_returned_as_is_witness :
  OCR.handler (MoreSamples.recognizes ["beta"; "alpha"; "beta"])
    (Some Samples.photo) Eff.initial
  = (inr (OCR.mkResponse 200
            (OCR.Text (JS.join OCR.nl ["beta"; "alpha"; "beta"]))),
     snd (OCR.processImageWithOCR
            (MoreSamples.recognizes ["beta"; "alpha"; "beta"]) []
            "image/png" Eff.initial)).
Proof.
  apply (image_text_returned_as_is
           (MoreSamples.recognizes ["beta"; "alpha"; "beta"]) Samples.photo
           Eff.initial _ (JS.join OCR.nl ["beta"; "alpha"; "beta"]));
    vm_compute; reflexivity.
Defined.

Lemma pdf_merges_layer_and_ocr_witness :
  OCR.handler (MoreSamples.recognizes ["Body"; "Title"])
    (Some Samples.scan) Eff.initial
  = (inr (OCR.mkResponse 200
            (OCR.Text (OCR.dedup
               ("Title" ++ OCR.nl ++ OCR.nl
                ++ JS.join OCR.nl ["Body"; "Title"])%string))),
     snd (OCR.processImageWithOCR
            (MoreSamples.recognizes ["Body"; "Title"]) []
            "application/pdf" Eff.initial)).
Proof.
  apply (pdf_merges_layer_and_ocr
           (MoreSamples.recognizes ["Body"; "Title"]) Samples.scan
           Eff.initial _ (OCR.mkPdf (Some "Title")));
    vm_compute; reflexivity.
Defined.

Lemma pdf_blank_ocr_ignored_witness :
  OCR.handler (MoreSamples.recognizes [" "]) (Some Samples.scan) Eff.initial
  = (inr (OCR.mkResponse 200 (OCR.Text (OCR.dedup "Title"))),
     snd (OCR.processImageWithOCR (MoreSamples.recognizes [" "]) []
            "application/pdf" Eff.initial)).
Proof.
  apply (pdf_blank_ocr_ignored (MoreSamples.recognizes [" "]) Samples.scan
           Eff.initial _ (OCR.mkPdf (Some "Title")) " ");
    vm_compute; reflexivity.
Defined.

Lemma unreadable_pdf_fails_locally_witness :
  OCR.handler MoreSamples.unreadablePdf (Some Samples.scan) Eff.initial
  = (inr (OCR.extractionFailed (JS.Error "Invalid PDF structure")),
     Eff.initial).
Proof.
  apply (unreadable_pdf_fails_locally MoreSamples.unreadablePdf Samples.scan
           Eff.initial (JS.Error "Invalid PDF structure"));
    reflexivity.
Defined.

Lemma gate_decides_on_suffix_witness :
  OCR.fileExt "photo.PNG" = JS.toLowerCase "PNG"
  /\ (OCR.handler Samples.succeedsOnThird (Some Samples.photo) Eff.initial
      = (inr OCR.unsupported, Eff.initial)
      <-> JS.includes OCR.supportedExtensions (JS.toLowerCase "PNG") = false).
Proof.
  exact (gate_decides_on_suffix Samples.succeedsOnThird Samples.photo
           Eff.initial "photo" "PNG" eq_refl eq_refl).
Defined.

Lemma dedup_keeps_clean_text_witness :
  OCR.dedup ("b" ++ OCR.nl ++ "a")%string = ("b" ++ OCR.nl ++ "a")%string.
Proof.
  apply (dedup_keeps_clean_text ("b" ++ OCR.nl ++ "a")%string).
  - vm_compute. repeat constructor; simpl; intuition discriminate.
  - vm_compute. repeat constructor.
Defined.

Lemma repeated_ocr_text_absorbed_witness :
  OCR.dedup (("a" ++ OCR.nl ++ "b") ++ OCR.nl ++ OCR.nl
             ++ ("b" ++ OCR.nl ++ OCR.nl ++ "a"))%string
  = OCR.dedup ("a" ++ OCR.nl ++ "b")%string.
Proof.
  apply (repeated_ocr_text_absorbed ("a" ++ OCR.nl ++ "b")%string
           ("b" ++ OCR.nl ++ OCR.nl ++ "a")%string).
  intros l Hl Hv. vm_compute in Hl. vm_compute.
  destruct Hl as [<-|[<-|[<-|[]]]]; [tauto | discriminate Hv | tauto].
Defined.




Lemma chat_rejection_reported_witness :
  Essay.handler MoreEssaySamples.refused EssaySamples.arithmetic Eff.initial
  = (inr (Essay.mkResponse 500
            (Essay.FailureDetails "Essay grading failed."
               "429 You exceeded your current quota")),
     Essay.sentState EssaySamples.arithmetic Eff.initial).
Proof.
  exact (chat_rejection_reported MoreEssaySamples.refused
           EssaySamples.arithmetic Eff.initial
           (JS.Error "429 You exceeded your current quota")
           arithmetic_valid eq_refl).
Defined.

Lemma well_formed_reply_returned_witness :
  Essay.handler (EssaySamples.replies EssaySamples.fullMarks)
    EssaySamples.arithmetic Eff.initial
  = (inr (Essay.mkResponse 200 (Essay.Graded EssaySamples.fullMarksValue)),
     Essay.sentState EssaySamples.arithmetic Eff.initial).
Proof.
  apply (well_formed_reply_returned
           (EssaySamples.replies EssaySamples.fullMarks)
           EssaySamples.arithmetic Eff.initial EssaySamples.fullMarks).
  - exact arithmetic_valid.
  - reflexivity.
  - vm_compute. reflexivity.
  - vm_compute. reflexivity.
Defined.

Lemma misshapen_reply_rejected_witness :
  Essay.handler (EssaySamples.replies MoreEssaySamples.arrayReply)
    EssaySamples.arithmetic Eff.initial
  = (inr Essay.invalidStructure,
     Essay.sentState EssaySamples.arithmetic Eff.initial).
Proof.
  apply (misshapen_reply_rejected
           (EssaySamples.replies MoreEssaySamples.arrayReply)
           EssaySamples.arithmetic Eff.initial MoreEssaySamples.arrayReply
           (JS.VArr [JS.VNum 1%Q; JS.VNum 2%Q])).
  - exact arithmetic_valid.
  - reflexivity.
  - vm_compute. reflexivity.
  - discriminate.
  - reflexivity.
Defined.

Lemma null_reply_fails_grading_witness :
  exists details,
    Essay.handler (EssaySamples.replies MoreEssaySamples.nullReply)
      EssaySamples.arithmetic Eff.initial
    = (inr (Essay.mkResponse 500
              (Essay.FailureDetails "Essay grading failed." details)),
       Essay.sentState EssaySamples.arithmetic Eff.initial).
Proof.
  apply (null_reply_fails_grading
           (EssaySamples.replies MoreEssaySamples.nullReply)
           EssaySamples.arithmetic Eff.initial MoreEssaySamples.nullReply).
  - exact arithmetic_valid.
  - reflexivity.
  - vm_compute. reflexivity.
Defined.


Lemma unfenced_reply_only_trimmed_witness :
  Essay.clean EssaySamples.fullMarks = JS.trim EssaySamples.fullMarks.
Proof.
  apply (unfenced_reply_only_trimmed EssaySamples.fullMarks).
  vm_compute. reflexivity.
Defined.
